(** * fin_ai.py: NSE stock information and charts

    A shallow embedding of [src/fin_ai.py].  Python values are an inductive
    type, floats are binary64 numbers of the Standard Library's [SpecFloat],
    exceptions are values of an error monad, and the calls into yfinance,
    pandas, matplotlib and PIL are answered by an explicit [world] whose
    answers may depend on everything that was called before. *)

From Stdlib Require Import ZArith QArith Qabs Lia String Ascii List Sorted.
From Stdlib Require Import Floats.SpecFloat DecimalString.
From stdpp Require Import base strings gmap list.

Local Open Scope Z_scope.
Local Set Warnings "-register-all".

(** ** Exceptions and results *)

(** The classes of [Exception] the program or its libraries raise.
    Only instances of [Exception] are modelled: interpreter signals such as
    [KeyboardInterrupt] are not exceptions of the request pipeline. *)
Inductive exn_class :=
| ValueError
| TypeError
| KeyError
| IndexError
| OverflowError
| FileNotFoundError
| OtherError (name : string).

(** An exception object: its class and [str(e)]. *)
Record exn := Exn { exn_cls : exn_class; exn_msg : string }.

Inductive result (A : Type) :=
| Ok (a : A)
| Raise (e : exn).
Arguments Ok {A} a.
Arguments Raise {A} e.

Definition rbind {A B} (r : result A) (k : A -> result B) : result B :=
  match r with
  | Ok a => k a
  | Raise e => Raise e
  end.

Definition is_ok {A} (r : result A) : bool :=
  match r with Ok _ => true | Raise _ => false end.

(** ** Python values *)

(** [PyList] stands for a Python list and for a numpy array alike. *)
Inductive pyval :=
| PyNone
| PyBool (b : bool)
| PyInt (z : Z)
| PyFloat (f : spec_float)
| PyStr (s : string)
| PyList (l : list pyval).

(** [isinstance(num, (int, float))]: [bool] is a subclass of [int], and
    numpy's float64 is a subclass of [float]. *)
Definition isinstance_int_float (num : pyval) : bool :=
  match num with
  | PyBool _ | PyInt _ | PyFloat _ => true
  | _ => false
  end.

(** ** binary64 arithmetic *)

Definition prec : Z := 53.
Definition emax : Z := 1024.

(** The nearest binary64 number to an integer (ties to even), infinite
    when the integer is too large. *)
Definition SF_of_Z (z : Z) : spec_float := binary_normalize prec emax z 0 false.

(** The least magnitude that rounds to 2^1024, that is, out of the
    binary64 range: half an ulp above the largest finite number. *)
Definition dbl_overflow : Z := 2 ^ 1024 - 2 ^ 970.

(** [float(z)] for an int [z] (PyLong_AsDouble). *)
Definition int_to_float (z : Z) : result spec_float :=
  if dbl_overflow <=? Z.abs z
  then Raise (Exn OverflowError "int too large to convert to float")
  else Ok (SF_of_Z z).

(** A nonzero integer as an unnormalised float, for the operand of a
    division. *)
Definition SF_raw (z : Z) : spec_float :=
  match z with
  | Z0 => S754_zero false
  | Zpos p => S754_finite false p 0
  | Zneg p => S754_finite true p 0
  end.

(** [a / b] for ints with [0 < b] (long_true_divide): the quotient
    rounded once, to nearest even. *)
Definition int_true_divide (a b : Z) : result spec_float :=
  if dbl_overflow * b <=? Z.abs a
  then Raise (Exn OverflowError "integer division result too large for a float")
  else Ok (SFdiv prec emax (SF_raw a) (SF_raw b)).

(** [num / k] for an int literal [k > 0] that a float holds exactly. *)
Definition py_truediv (num : pyval) (k : Z) : result spec_float :=
  match num with
  | PyInt z => int_true_divide z k
  | PyBool b => int_true_divide (Z.b2z b) k
  | PyFloat f => Ok (SFdiv prec emax f (SF_of_Z k))
  | _ => Raise (Exn TypeError "unsupported operand type(s) for /")
  end.

(** The sign and magnitude of a finite float against an integer: Python
    compares a float with an int exactly. *)
Definition finite_geb (s : bool) (m : positive) (e : Z) (k : Z) : bool :=
  let v := if s then Zneg m else Zpos m in
  if 0 <=? e then k <=? v * 2 ^ e else k * 2 ^ (- e) <=? v.

(** [num >= k] for an int literal [k]. *)
Definition py_ge (num : pyval) (k : Z) : bool :=
  match num with
  | PyInt z => k <=? z
  | PyBool b => k <=? Z.b2z b
  | PyFloat S754_nan => false
  | PyFloat (S754_infinity s) => negb s
  | PyFloat (S754_zero _) => k <=? 0
  | PyFloat (S754_finite s m e) => finite_geb s m e k
  | _ => false
  end.

(** ** Format specifications *)

Definition dec (n : Z) : string := NilZero.string_of_uint (N.to_uint (Z.to_N n)).

Definition two_digits (n : Z) : string :=
  if n <? 10 then "0" +:+ dec n else dec n.

(** [n / d] rounded to the nearest integer, ties to even. *)
Definition div_half_even (n d : Z) : Z :=
  let q := n / d in
  match 2 * (n mod d) ?= d with
  | Lt => q
  | Gt => q + 1
  | Eq => if Z.even q then q else q + 1
  end.

(** The magnitude [m * 2^e] in hundredths, correctly rounded. *)
Definition hundredths (m : positive) (e : Z) : Z :=
  if 0 <=? e then Zpos m * 100 * 2 ^ e
  else div_half_even (Zpos m * 100) (2 ^ (- e)).

Definition fixed2 (h : Z) : string :=
  dec (h / 100) +:+ "." +:+ two_digits (h mod 100).

Definition sign_str (s : bool) : string := if s then "-" else EmptyString.

(** [format(f, ".2f")] for a float. *)
Definition float_2f (f : spec_float) : string :=
  match f with
  | S754_nan => "nan"
  | S754_infinity s => sign_str s +:+ "inf"
  | S754_zero s => sign_str s +:+ "0.00"
  | S754_finite s m e => sign_str s +:+ fixed2 (hundredths m e)
  end.

(** The name Python gives the type of a value in its messages. *)
Definition type_name (v : pyval) : string :=
  match v with
  | PyNone => "NoneType"
  | PyBool _ => "bool"
  | PyInt _ => "int"
  | PyFloat _ => "float"
  | PyStr _ => "str"
  | PyList _ => "list"
  end.

Definition bad_format (code : string) (v : pyval) : exn :=
  match v with
  | PyStr _ =>
      Exn ValueError
        ("Unknown format code '" +:+ code +:+ "' for object of type 'str'")
  | _ =>
      Exn TypeError
        ("unsupported format string passed to " +:+ type_name v +:+ ".__format__")
  end.

(** [f"{v:.2f}"] *)
Definition format_2f (v : pyval) : result string :=
  match v with
  | PyFloat f => Ok (float_2f f)
  | PyInt z => rbind (int_to_float z) (fun f => Ok (float_2f f))
  | PyBool b => rbind (int_to_float (Z.b2z b)) (fun f => Ok (float_2f f))
  | _ => Raise (bad_format "f" v)
  end.

(** [f"{v:.2%}"]: the float times 100, in fixed notation, then a percent
    sign. *)
Definition float_2pct (f : spec_float) : string :=
  float_2f (SFmul prec emax f (SF_of_Z 100)) +:+ "%".

Definition format_2pct (v : pyval) : result string :=
  match v with
  | PyFloat f => Ok (float_2pct f)
  | PyInt z => rbind (int_to_float z) (fun f => Ok (float_2pct f))
  | PyBool b => rbind (int_to_float (Z.b2z b)) (fun f => Ok (float_2pct f))
  | _ => Raise (bad_format "%" v)
  end.

(** ** Number Formatter *)

Definition rupee : string := "₹".

Definition format_large_number (num : pyval) : result string :=
  if isinstance_int_float num then
    if py_ge num 1000000000000 then
      rbind (py_truediv num 1000000000000)
        (fun q => Ok (rupee +:+ float_2f q +:+ " Trillion"))
    else if py_ge num 1000000000 then
      rbind (py_truediv num 1000000000)
        (fun q => Ok (rupee +:+ float_2f q +:+ " Billion"))
    else if py_ge num 1000000 then
      rbind (py_truediv num 1000000)
        (fun q => Ok (rupee +:+ float_2f q +:+ " Million"))
    else
      rbind (format_2f num) (fun s => Ok (rupee +:+ s))
  else Ok "N/A".

(** ** Truth value and text of a value *)

(** [bool(v)], as the conditional expression on the dividend yield uses
    it.  A NaN is true. *)
Definition truthy (v : pyval) : bool :=
  match v with
  | PyNone => false
  | PyBool b => b
  | PyInt z => negb (z =? 0)
  | PyFloat (S754_zero _) => false
  | PyFloat _ => true
  | PyStr s => negb (String.eqb s EmptyString)
  | PyList l => match l with [] => false | _ => true end
  end.

Definition signed_dec (z : Z) : string :=
  if z <? 0 then "-" +:+ dec (- z) else dec z.

Fixpoint join (sep : string) (l : list string) : string :=
  match l with
  | [] => EmptyString
  | [s] => s
  | s :: l' => s +:+ sep +:+ join sep l'
  end.

Definition quote (s : string) : string := "'" +:+ s +:+ "'".

Definition nl : string := String "010"%char EmptyString.

(** ** Tables *)

(** A pandas DataFrame: row labels, column labels and the cell at a row
    and a column position. *)
Record DataFrame := {
  df_index : list string;
  df_columns : list string;
  df_cell : nat -> nat -> pyval
}.

(** [df.empty]: some axis has length 0. *)
Definition df_empty (df : DataFrame) : bool :=
  match df_index df, df_columns df with
  | [], _ => true
  | _, [] => true
  | _, _ => false
  end.

(** [df.iloc[:, :n]] *)
Definition iloc_cols (n : nat) (df : DataFrame) : DataFrame :=
  {| df_index := df_index df;
     df_columns := firstn n (df_columns df);
     df_cell := df_cell df |}.

Definition row_values (df : DataFrame) (i : nat) : list pyval :=
  map (df_cell df i) (seq 0 (length (df_columns df))).

Definition col_values (df : DataFrame) (j : nat) : list pyval :=
  map (fun i => df_cell df i j) (seq 0 (length (df_index df))).

(** The positions at which a label occurs, counted from [i]. *)
Fixpoint positions (label : string) (labels : list string) (i : nat) : list nat :=
  match labels with
  | [] => []
  | l :: labels' =>
      if String.eqb l label then i :: positions label labels' (S i)
      else positions label labels' (S i)
  end.

(** [df.loc[label].values]: the row of a label that occurs once, the rows
    (a 2-D array) of a label that occurs several times, KeyError for a label
    that does not occur.  The labels this program looks up contain no quote,
    so that [quote] is their [repr]. *)
Definition loc_values (label : string) (df : DataFrame) : result (list pyval) :=
  match positions label (df_index df) 0 with
  | [] => Raise (Exn KeyError (quote label))
  | [i] => Ok (row_values df i)
  | rows => Ok (map (fun i => PyList (row_values df i)) rows)
  end.

(** [df[label].tolist()] *)
Definition column_tolist (label : string) (df : DataFrame) : result (list pyval) :=
  match positions label (df_columns df) 0 with
  | [] => Raise (Exn KeyError (quote label))
  | j :: _ => Ok (col_values df j)
  end.

(** [seq[0]] *)
Definition index0 (l : list pyval) : result pyval :=
  match l with
  | v :: _ => Ok v
  | [] => Raise (Exn IndexError "index 0 is out of bounds for axis 0 with size 0")
  end.

(** ** Price history *)

Record date := { year : Z; month : Z; day : Z }.

(** A row of [stock.history(...)], with cells of type [A]. *)
Record hist_row (A : Type) := {
  h_date : date;
  h_high : A;
  h_low : A;
  h_close : A
}.
Arguments h_date {A} _.
Arguments h_high {A} _.
Arguments h_low {A} _.
Arguments h_close {A} _.

(** A row of the quarterly averages: the quarter as pandas holds a
    quarterly Period, the number of quarters since 1970Q1. *)
Record quarter_row (A : Type) := {
  q_period : Z;
  q_high : A;
  q_low : A
}.
Arguments Build_quarter_row {A} _ _ _.
Arguments q_period {A} _.
Arguments q_high {A} _.
Arguments q_low {A} _.

(** [timestamp.to_period('Q')] *)
Definition to_period_Q (d : date) : Z :=
  (year d - 1970) * 4 + (month d - 1) / 3.

(** [period.strftime('%Y-Q%q')] *)
Definition strftime_Yq (q : Z) : string :=
  signed_dec (1970 + q / 4) +:+ "-Q" +:+ dec (q mod 4 + 1).

(** [groupby(key)]: the rows of each key, in row order, the keys sorted
    ascending. *)
Section GroupBy.
Context {R : Type} (key : R -> Z).

Fixpoint group_add (k : Z) (r : R) (gs : list (Z * list R)) : list (Z * list R) :=
  match gs with
  | [] => [(k, [r])]
  | (k', rs) :: gs' =>
      if k <? k' then (k, [r]) :: gs
      else if k =? k' then (k', rs ++ [r]) :: gs'
      else (k', rs) :: group_add k r gs'
  end.

Definition groupby (rows : list R) : list (Z * list R) :=
  fold_left (fun gs r => group_add (key r) r gs) rows [].
End GroupBy.

(** [hist.groupby('Quarter')[['High', 'Low']].mean()], for the [mean] of a
    column of a group. *)
Definition groupby_quarter_mean {A} (mean : list A -> A) (hist : list (hist_row A))
  : list (quarter_row A) :=
  map (fun g : Z * list (hist_row A) =>
         Build_quarter_row (fst g) (mean (map h_high (snd g))) (mean (map h_low (snd g))))
      (groupby (fun r => to_period_Q (h_date r)) hist).


(** ** The outside world *)

Inductive image := PngImage (data : string).

(** The calls that leave the program. *)
Inductive call :=
| YfInfo (ticker : string)
| YfHistory (ticker period : string)
| YfQuarterlyFinancials (ticker : string)
| PdReadCsv (path : string)
| Mpl (method : string) (args : list pyval)
| MplSavefig
| PilOpen (data : string).

(** What a call came to: [None] when it returned, the exception when it
    raised. *)
Definition event : Type := call * option exn.
Definition log : Type := list event.

(** The answers of the libraries.  An answer may depend on the calls made
    so far (the log, most recent first). *)
Record world := {
  yf_info : log -> string -> result (gmap string pyval);
  yf_history : log -> string -> string -> result (list (hist_row spec_float));
  yf_quarterly_financials : log -> string -> result DataFrame;
  pd_read_csv : log -> string -> result DataFrame;
  mpl : log -> string -> list pyval -> result unit;
  mpl_savefig : log -> result string;
  pil_open : log -> string -> result image
}.

(** Computations that call the world, log their calls and may raise. *)
Definition M (A : Type) : Type := world -> log -> result A * log.

Definition outcome {A} (r : result A) : option exn :=
  match r with Ok _ => None | Raise e => Some e end.

Definition ret {A} (a : A) : M A := fun _ l => (Ok a, l).
Definition bind {A B} (m : M A) (k : A -> M B) : M B :=
  fun w l =>
    match m w l with
    | (Ok a, l') => k a w l'
    | (Raise e, l') => (Raise e, l')
    end.
Definition lift {A} (r : result A) : M A := fun _ l => (r, l).
Definition ask {A} (c : call) (answer : world -> log -> result A) : M A :=
  fun w l => let r := answer w l in (r, (c, outcome r) :: l).

(** [try: ... except Exception as e: ...] *)
Definition try_except {A B} (body : M A) (done : A -> B) (handler : exn -> B) : M B :=
  fun w l =>
    match body w l with
    | (Ok a, l') => (Ok (done a), l')
    | (Raise e, l') => (Ok (handler e), l')
    end.

#[export] Instance M_ret : MRet M := @ret.
#[export] Instance M_bind : MBind M := fun A B k m => bind m k.

Definition stock_info_call (ticker : string) : M (gmap string pyval) :=
  ask (YfInfo ticker) (fun w l => yf_info w l ticker).
Definition stock_history (ticker period : string) : M (list (hist_row spec_float)) :=
  ask (YfHistory ticker period) (fun w l => yf_history w l ticker period).
Definition stock_quarterly_financials (ticker : string) : M DataFrame :=
  ask (YfQuarterlyFinancials ticker) (fun w l => yf_quarterly_financials w l ticker).
Definition read_csv (path : string) : M DataFrame :=
  ask (PdReadCsv path) (fun w l => pd_read_csv w l path).
Definition mpl_call (method : string) (args : list pyval) : M unit :=
  ask (Mpl method args) (fun w l => mpl w l method args).
Definition savefig : M string := ask MplSavefig mpl_savefig.
Definition image_open (data : string) : M image :=
  ask (PilOpen data) (fun w l => pil_open w l data).

(** ** Market Data Client *)

Definition na3 : list pyval := [PyStr "N/A"; PyStr "N/A"; PyStr "N/A"].

Definition get_quarterly_financials (ticker : string)
  : M (list pyval * list pyval * list pyval) :=
  quarterly_financials ← stock_quarterly_financials ticker;
  if negb (df_empty quarterly_financials) then
    let latest_quarters := iloc_cols 3 quarterly_financials in
    net_profit ← lift (loc_values "Net Income" latest_quarters);
    sales ← lift (loc_values "Total Revenue" latest_quarters);
    operating_income ← lift (loc_values "Operating Income" latest_quarters);
    ret (net_profit, sales, operating_income)
  else
    ret (na3, na3, na3).

(** [info.get(key, 'N/A')] *)
Definition info_get (info : gmap string pyval) (key : string) : pyval :=
  default (PyStr "N/A") (info !! key).

(** [frame["Close"].iloc[-1]] *)
Definition last_close (h : list (hist_row spec_float)) : result pyval :=
  match last (map h_close h) with
  | Some c => Ok (PyFloat c)
  | None => Raise (Exn IndexError "single positional indexer is out-of-bounds")
  end.

(** ** Metrics Aggregator *)

Definition stock_info_keys : list string :=
  ["Company Name"; "Ticker"; "Current Price"; "Market Cap"; "PE Ratio";
   "Dividend Yield"; "EPS"; "Revenue"; "Net Profit (Last Quarter)";
   "Sales (Last Quarter)"; "Operating Income (Last Quarter)"; "Beta";
   "52-Week High"; "52-Week Low"; "Sector"; "Recommendation"].

(** The dict that [get_stock_info] returns keeps the order in which its
    display lists the keys, which are distinct: it is the list of its
    items. *)
Definition get_stock_info (ticker : string) : M (list (string * pyval)) :=
  info ← stock_info_call ticker;
  let name := info_get info "longName" in
  let market_cap := info_get info "marketCap" in
  today ← stock_history ticker "1d";
  current_price ←
    (if negb (match today with [] => true | _ => false end)
     then closes ← stock_history ticker "1d"; lift (last_close closes)
     else ret (PyStr "N/A"));
  let pe_ratio := info_get info "forwardPE" in
  let dividend_yield := info_get info "dividendYield" in
  let eps := info_get info "trailingEps" in
  let revenue := info_get info "totalRevenue" in
  let beta := info_get info "beta" in
  let sector := info_get info "sector" in
  let recommendation := info_get info "recommendationKey" in
  let fifty_two_week_high := info_get info "fiftyTwoWeekHigh" in
  let fifty_two_week_low := info_get info "fiftyTwoWeekLow" in
  '(net_profit, sales, operating_income) ← get_quarterly_financials ticker;
  v_price ← lift (format_large_number current_price);
  v_cap ← lift (format_large_number market_cap);
  v_yield ← lift (if truthy dividend_yield then format_2pct dividend_yield
                   else Ok "N/A");
  v_eps ← lift (format_large_number eps);
  v_revenue ← lift (format_large_number revenue);
  v_profit ← lift (rbind (index0 net_profit) format_large_number);
  v_sales ← lift (rbind (index0 sales) format_large_number);
  v_income ← lift (rbind (index0 operating_income) format_large_number);
  v_high ← lift (format_large_number fifty_two_week_high);
  v_low ← lift (format_large_number fifty_two_week_low);
  ret [("Company Name", name);
       ("Ticker", PyStr ticker);
       ("Current Price", PyStr v_price);
       ("Market Cap", PyStr v_cap);
       ("PE Ratio", pe_ratio);
       ("Dividend Yield", PyStr v_yield);
       ("EPS", PyStr v_eps);
       ("Revenue", PyStr v_revenue);
       ("Net Profit (Last Quarter)", PyStr v_profit);
       ("Sales (Last Quarter)", PyStr v_sales);
       ("Operating Income (Last Quarter)", PyStr v_income);
       ("Beta", beta);
       ("52-Week High", PyStr v_high);
       ("52-Week Low", PyStr v_low);
       ("Sector", sector);
       ("Recommendation", recommendation)].

(** ** Chart Renderer *)

(** [for i, v in enumerate(values): axes[axis].text(i, v, f"₹{v:.2f}", ...)] *)
Fixpoint annotate_bars (axis : Z) (i : Z) (values : list pyval) : M unit :=
  match values with
  | [] => ret tt
  | v :: values' =>
      s ← lift (format_2f v);
      mpl_call "text" [PyInt axis; PyInt i; v; PyStr (rupee +:+ s)];;
      annotate_bars axis (i + 1) values'
  end.

Definition quarter_labels : list pyval := [PyStr "Q1"; PyStr "Q2"; PyStr "Q3"].

Definition plot_visualizations (ticker : string) (net_profit sales : list pyval)
    (quarterly_high_low : list (quarter_row spec_float)) : M image :=
  mpl_call "subplots" [PyInt 3; PyInt 1];;
  mpl_call "bar" [PyInt 0; PyList quarter_labels; PyList net_profit; PyStr "blue"];;
  mpl_call "set_title" [PyInt 0; PyStr (ticker +:+ " - Net Profit (Last 3 Quarters)")];;
  mpl_call "set_ylabel" [PyInt 0; PyStr rupee];;
  annotate_bars 0 0 net_profit;;
  mpl_call "bar" [PyInt 1; PyList quarter_labels; PyList sales; PyStr "orange"];;
  mpl_call "set_title" [PyInt 1; PyStr (ticker +:+ " - Sales (Last 3 Quarters)")];;
  mpl_call "set_ylabel" [PyInt 1; PyStr rupee];;
  annotate_bars 1 0 sales;;
  let quarters := map (fun r => PyStr (strftime_Yq (q_period r))) quarterly_high_low in
  mpl_call "plot" [PyInt 2; PyList quarters;
                   PyList (map (fun r => PyFloat (q_high r)) quarterly_high_low);
                   PyStr "High"; PyStr "green"; PyStr "o"];;
  mpl_call "plot" [PyInt 2; PyList quarters;
                   PyList (map (fun r => PyFloat (q_low r)) quarterly_high_low);
                   PyStr "Low"; PyStr "red"; PyStr "o"];;
  mpl_call "set_title" [PyInt 2; PyStr (ticker +:+ " - 52-Week High/Low Averages by Quarter")];;
  mpl_call "set_ylabel" [PyInt 2; PyStr rupee];;
  mpl_call "legend" [PyInt 2];;
  mpl_call "tight_layout" [];;
  image_stream ← savefig;
  image_open image_stream.

(** ** Symbol Catalog Loader *)

(** [except FileNotFoundError] *)
Definition is_FileNotFoundError (e : exn) : bool :=
  match exn_cls e with FileNotFoundError => true | _ => false end.

Definition load_stocks : M (list pyval) :=
  fun w l =>
    match (nse_data ← read_csv "nse_stocks.csv";
           lift (column_tolist "SYMBOL" nse_data)) w l with
    | (Raise e, l') =>
        if is_FileNotFoundError e then (Ok [], l') else (Raise e, l')
    | ok => ok
    end.

(** ** Quarterly Averager and Request Handler *)

Section Runtime.
(** [repr] of a float and of a string, and pandas' mean of a column of
    floats: library functions whose results the program passes on. *)
Variable float_repr : spec_float -> string.
Variable str_repr : string -> string.
Variable float_mean : list spec_float -> spec_float.

Definition calculate_quarterly_averages (ticker : string)
  : M (list (quarter_row spec_float)) :=
  hist ← stock_history ticker "1y";
  ret (groupby_quarter_mean float_mean hist).

Fixpoint py_repr (v : pyval) : string :=
  match v with
  | PyNone => "None"
  | PyBool b => if b then "True" else "False"
  | PyInt z => signed_dec z
  | PyFloat f => float_repr f
  | PyStr s => str_repr s
  | PyList l => "[" +:+ join ", " (map py_repr l) +:+ "]"
  end.

(** [str(v)], as an f-string field without a format takes it. *)
Definition py_str (v : pyval) : string :=
  match v with
  | PyStr s => s
  | _ => py_repr v
  end.

(** The body of the [try] statement of [main]. *)
Definition main_try (ticker : string) : M (string * image) :=
  stock_info ← get_stock_info ticker;
  '(net_profit, sales, _) ← get_quarterly_financials ticker;
  quarterly_high_low ← calculate_quarterly_averages ticker;
  visual_image ← plot_visualizations ticker net_profit sales quarterly_high_low;
  let stock_info_md :=
    join (nl +:+ nl)
      (map (fun kv : string * pyval =>
              "**" +:+ fst kv +:+ "**: " +:+ py_str (snd kv)) stock_info) in
  ret (stock_info_md, visual_image).

Definition main (ticker_symbol : string) : M (string * option image) :=
  let ticker := ticker_symbol +:+ ".NS" in
  try_except (main_try ticker)
    (fun r => (fst r, Some (snd r)))
    (fun e => ("Error fetching data for " +:+ ticker +:+ ": " +:+ exn_msg e, None)).
End Runtime.

(** ** Notions the statements are written in *)

(** The numeric types of Python. *)
Inductive numeric : pyval -> Prop :=
| numeric_bool b : numeric (PyBool b)
| numeric_int z : numeric (PyInt z)
| numeric_float f : numeric (PyFloat f).

(** The number a numeric value stands for: a rational, an infinity or
    not a number. *)
Inductive xnum :=
| XNan
| XInf (neg : bool)
| XFin (q : Q).

Definition finite_value (s : bool) (m : positive) (e : Z) : Q :=
  let v := if s then Zneg m else Zpos m in
  if 0 <=? e then inject_Z (v * 2 ^ e) else (v # Z.to_pos (2 ^ (- e)))%Q.

Definition float_value (f : spec_float) : xnum :=
  match f with
  | S754_nan => XNan
  | S754_infinity s => XInf s
  | S754_zero _ => XFin (inject_Z 0)
  | S754_finite s m e => XFin (finite_value s m e)
  end.

Definition num_value (v : pyval) : option xnum :=
  match v with
  | PyBool b => Some (XFin (inject_Z (Z.b2z b)))
  | PyInt z => Some (XFin (inject_Z z))
  | PyFloat f => Some (float_value f)
  | _ => None
  end.

(** [k <= x] and [x < k] for an integer [k]; both fail for a NaN. *)
Definition x_ge (x : xnum) (k : Z) : Prop :=
  match x with
  | XNan => False
  | XInf neg => neg = false
  | XFin q => (inject_Z k <= q)%Q
  end.

Definition x_lt (x : xnum) (k : Z) : Prop :=
  match x with
  | XNan => False
  | XInf neg => neg = true
  | XFin q => (q < inject_Z k)%Q
  end.

(** The magnitude of a number. *)
Definition x_abs (x : xnum) : xnum :=
  match x with
  | XNan => XNan
  | XInf _ => XInf false
  | XFin q => XFin (Qabs q)
  end.

Definition ends_with (suffix s : string) : Prop :=
  exists p, s = p +:+ suffix.

Definition has_tier (s : string) : Prop :=
  ends_with " Million" s \/ ends_with " Billion" s \/ ends_with " Trillion" s.

(** An int small enough for its quotient by [k] to be a float; bools and
    floats always are. *)
Definition quotient_fits (num : pyval) (k : Z) : Prop :=
  match num with
  | PyInt z => Z.abs z < dbl_overflow * k
  | _ => True
  end.

Fixpoint has_space (s : string) : bool :=
  match s with
  | EmptyString => false
  | String c s' => Ascii.eqb c " "%char || has_space s'
  end.

(** The output of a tier: the currency symbol, the quotient by the
    divisor of the tier to 2 decimals, the name of the tier. *)
Definition tier_output (num : pyval) (k : Z) (suffix : string) : Prop :=
  exists q, py_truediv num k = Ok q /\
            format_large_number num = Ok (rupee +:+ float_2f q +:+ suffix).

(** [post w m P]: in the world [w], whatever [m] returns satisfies [P].
    With [P] nowhere true, [m] never returns: it raises. *)
Definition post {A} (w : world) (m : M A) (P : A -> Prop) : Prop :=
  forall l a l', m w l = (Ok a, l') -> P a.

Definition raises {A} (w : world) (m : M A) : Prop :=
  forall l, exists e, fst (m w l) = Raise e.

(** The ticker of a call to the market-data provider. *)
Definition provider_ticker (c : call) : option string :=
  match c with
  | YfInfo t | YfHistory t _ | YfQuarterlyFinancials t => Some t
  | _ => None
  end.

Definition uses_ticker (ticker : string) (ev : event) : Prop :=
  forall t, provider_ticker (fst ev) = Some t -> t = ticker.

(** [tracks ticker m]: [m] adds its calls in front of the log, calls the
    provider for [ticker] only, and an exception of a call is the exception
    [m] raises. *)
Definition tracks {A} (ticker : string) (m : M A) : Prop :=
  forall w l, exists ext,
    snd (m w l) = ext ++ l /\
    Forall (uses_ticker ticker) ext /\
    (forall c e, In (c, Some e) ext -> fst (m w l) = Raise e).

(** A label is missing from the rows of a table. *)
Definition row_absent (label : string) (df : DataFrame) : Prop :=
  ~ In label (df_index df).

(** ** A sample world *)

(** The float nearest to the fraction [a / b]. *)
Definition SF_ratio (a b : Z) : spec_float := SFdiv prec emax (SF_raw a) (SF_raw b).

Definition table_of (index columns : list string) (cells : list (list pyval))
  : DataFrame :=
  {| df_index := index;
     df_columns := columns;
     df_cell := fun i j => nth j (nth i cells []) (PyFloat S754_nan) |}.

Definition sample_info : gmap string pyval :=
  list_to_map
    [("longName", PyStr "Reliance Industries Limited");
     ("marketCap", PyInt 17500000000000);
     ("forwardPE", PyInt 22);
     ("dividendYield", PyFloat (SF_ratio 234 10000));
     ("trailingEps", PyFloat (SF_ratio 1025 10));
     ("totalRevenue", PyInt 9000000000000);
     ("beta", PyInt 1);
     ("sector", PyStr "Energy");
     ("recommendationKey", PyStr "buy");
     ("fiftyTwoWeekHigh", PyFloat (SF_ratio 30255 10));
     ("fiftyTwoWeekLow", PyInt 2220)].

Definition sample_statement : DataFrame :=
  table_of
    ["Total Revenue"; "Operating Income"; "Net Income"]
    ["2024-03-31"; "2023-12-31"; "2023-09-30"; "2023-06-30"]
    [[PyFloat (SF_of_Z 2400000000000); PyFloat (SF_of_Z 2250000000000);
      PyFloat (SF_of_Z 2310000000000); PyFloat (SF_of_Z 2100000000000)];
     [PyFloat (SF_of_Z 300000000000); PyFloat (SF_of_Z 280000000000);
      PyFloat (SF_of_Z 290000000000); PyFloat (SF_of_Z 270000000000)];
     [PyFloat (SF_of_Z 189000000000); PyFloat (SF_of_Z 172000000000);
      PyFloat (SF_of_Z 174000000000); PyFloat (SF_of_Z 160000000000)]].

Definition empty_statement : DataFrame := table_of [] [] [].

(** A statement table without the row "Operating Income". *)
Definition short_statement : DataFrame :=
  table_of
    ["Total Revenue"; "Net Income"]
    ["2024-03-31"; "2023-12-31"]
    [[PyFloat (SF_of_Z 2400000000000); PyFloat (SF_of_Z 2250000000000)];
     [PyFloat (SF_of_Z 189000000000); PyFloat (SF_of_Z 172000000000)]].

Definition sample_day (y m d : Z) (high low close : Z) : hist_row spec_float :=
  {| h_date := {| year := y; month := m; day := d |};
     h_high := SF_of_Z high; h_low := SF_of_Z low; h_close := SF_of_Z close |}.

Definition sample_history : list (hist_row spec_float) :=
  [sample_day 2023 11 30 2400 2350 2380;
   sample_day 2023 12 29 2600 2550 2590;
   sample_day 2024 1 15 2700 2650 2660;
   sample_day 2024 2 15 2900 2850 2890;
   sample_day 2024 4 1 3000 2950 2970].

Definition make_world (info : result (gmap string pyval))
    (statement : result DataFrame) (csv : result DataFrame) : world :=
  {| yf_info := fun _ _ => info;
     yf_history := fun _ _ _ => Ok sample_history;
     yf_quarterly_financials := fun _ _ => statement;
     pd_read_csv := fun _ _ => csv;
     mpl := fun _ _ _ => Ok tt;
     mpl_savefig := fun _ => Ok "PNG";
     pil_open := fun _ data => Ok (PngImage data) |}.

Definition no_csv : result DataFrame :=
  Raise (Exn FileNotFoundError
           "[Errno 2] No such file or directory: 'nse_stocks.csv'").

Definition sample_world : world :=
  make_world (Ok sample_info) (Ok sample_statement) no_csv.

(** The provider has no quarterly statement for the symbol. *)
Definition no_statement_world : world :=
  make_world (Ok sample_info) (Ok empty_statement) no_csv.

Definition short_statement_world : world :=
  make_world (Ok sample_info) (Ok short_statement) no_csv.

(** The provider reports no dividend yield for the symbol. *)
Definition no_dividend_world : world :=
  make_world (Ok (delete "dividendYield" sample_info)) (Ok sample_statement) no_csv.

(** The provider cannot be reached. *)
Definition offline_world : world :=
  make_world (Raise (Exn (OtherError "ConnectionError") "Max retries exceeded"))
    (Ok sample_statement) no_csv.

Definition naive_float_mean (l : list spec_float) : spec_float :=
  SFdiv prec emax (fold_left (SFadd prec emax) l (S754_zero false))
    (SF_of_Z (Z.of_nat (length l))).

(** [main] with stand-ins for [repr] (never reached in the sample
    worlds, whose unformatted fields are ints and strings) and for the
    mean of floats. *)
Definition sample_main : string -> M (string * option image) :=
  main float_2f quote naive_float_mean.

(** The rows of a history whose date falls in the quarter [q]. *)
Definition in_quarter {A} (q : Z) (hist : list (hist_row A)) : list (hist_row A) :=
  List.filter (fun r => to_period_Q (h_date r) =? q) hist.

(** The calendar quarter of a date, 1 to 4. *)
Definition calendar_quarter (d : date) : Z := (month d - 1) / 3 + 1.

(** What [groupby] makes of a list of rows: sorted keys, and under each
    key the rows of that key, in row order, which are some. *)
Definition grouped {R : Type} (key : R -> Z) (rows : list R)
    (gs : list (Z * list R)) : Prop :=
  StronglySorted Z.lt (map fst gs) /\
  (forall k rs, In (k, rs) gs ->
                rs = List.filter (fun r => key r =? k) rows /\ rs <> []) /\
  (forall r, In r rows -> In (key r) (map fst gs)).

(** ** Further notions *)

(** The ints that no float can hold after the division the formatter
    applies to them (at or above 10^12), or as they are (below 10^6). *)
Definition beyond_float (z : Z) : Prop :=
  dbl_overflow * 1000000000000 <= z \/ z <= - dbl_overflow.

(** [d[key]] for the items of a dict. *)
Fixpoint assoc (key : string) (d : list (string * pyval)) : option pyval :=
  match d with
  | [] => None
  | (k, v) :: d' => if String.eqb k key then Some v else assoc key d'
  end.

(** A catalog file with two symbols, and one without the SYMBOL column. *)
Definition sample_catalog : DataFrame :=
  table_of ["0"; "1"] ["SYMBOL"; "NAME OF COMPANY"]
    [[PyStr "RELIANCE"; PyStr "Reliance Industries Limited"];
     [PyStr "TCS"; PyStr "Tata Consultancy Services Limited"]].

Definition unlabelled_catalog : DataFrame :=
  table_of ["0"] ["TICKER"] [[PyStr "RELIANCE"]].

Definition catalog_world (csv : result DataFrame) : world :=
  make_world (Ok sample_info) (Ok sample_statement) csv.

(** The fields of the result that hold a provider value as it is, and
    the fields that hold one through the formatter, each with the key of the
    provider's profile it comes from. *)
Definition plain_fields : list (string * string) :=
  [("Company Name", "longName"); ("PE Ratio", "forwardPE"); ("Beta", "beta");
   ("Sector", "sector"); ("Recommendation", "recommendationKey")].

Definition money_fields : list (string * string) :=
  [("Market Cap", "marketCap"); ("EPS", "trailingEps");
   ("Revenue", "totalRevenue"); ("52-Week High", "fiftyTwoWeekHigh");
   ("52-Week Low", "fiftyTwoWeekLow")].

(** A profile in which the provider reports nothing but a dividend yield
    of None. *)
Definition bare_info : gmap string pyval := {[ "dividendYield" := PyNone ]}.

Definition bare_world : world :=
  make_world (Ok bare_info) (Ok sample_statement) no_csv.

(** The last-quarter fields of the result, each with the row of the
    statement table it comes from. *)
Definition quarter_fields : list (string * string) :=
  [("Net Profit (Last Quarter)", "Net Income");
   ("Sales (Last Quarter)", "Total Revenue");
   ("Operating Income (Last Quarter)", "Operating Income")].

(** A provider whose one-day history has a row when it is first asked
    and none when it is asked again. *)
Definition flickering_world : world :=
  {| yf_info := fun _ _ => Ok sample_info;
     yf_history := fun l _ _ =>
       match l with
       | (YfHistory _ _, _) :: _ => Ok []
       | _ => Ok sample_history
       end;
     yf_quarterly_financials := fun _ _ => Ok sample_statement;
     pd_read_csv := fun _ _ => no_csv;
     mpl := fun _ _ _ => Ok tt;
     mpl_savefig := fun _ => Ok "PNG";
     pil_open := fun _ data => Ok (PngImage data) |}.

(** A call that returned. *)
Definition returned (ev : event) : Prop := snd ev = None.

(** Of the calls a computation added to the log (most recent first), only
    the most recent one may have raised. *)
Definition only_last_raised (ext : list event) : Prop :=
  match ext with
  | [] => True
  | _ :: earlier => Forall returned earlier
  end.

(** [fail_fast m]: [m] makes no call after a call that raised, and when it
    returns every call it made returned. *)
Definition fail_fast {A} (m : M A) : Prop :=
  forall w l, exists ext,
    snd (m w l) = ext ++ l /\
    only_last_raised ext /\
    (is_ok (fst (m w l)) = true -> Forall returned ext).

(** ** The mean of a column as pandas computes it *)






(** ** The calendar *)








(** * Properties *)

(** ** Number Formatter *)

Lemma dbl_overflow_large : 1000000000000 <= dbl_overflow.
Proof. apply Z.leb_le. vm_compute. reflexivity. Qed.

Lemma int_true_divide_fits (a b : Z) :
  Z.abs a < dbl_overflow * b ->
  int_true_divide a b = Ok (SFdiv prec emax (SF_raw a) (SF_raw b)).
Proof.
  intros H. unfold int_true_divide.
  destruct (Z.leb_spec (dbl_overflow * b) (Z.abs a)); [lia | reflexivity].
Qed.

Lemma int_to_float_fits (z : Z) :
  Z.abs z < dbl_overflow -> int_to_float z = Ok (SF_of_Z z).
Proof.
  intros H. unfold int_to_float.
  destruct (Z.leb_spec dbl_overflow (Z.abs z)); [lia | reflexivity].
Qed.

Lemma Qle_inject_Z (a b : Z) : (inject_Z a <= inject_Z b)%Q <-> a <= b.
Proof. unfold Qle. simpl. lia. Qed.

Lemma Qlt_inject_Z (a b : Z) : (inject_Z a < inject_Z b)%Q <-> a < b.
Proof. unfold Qlt. simpl. lia. Qed.

Lemma finite_geb_spec (s : bool) (m : positive) (e k : Z) :
  finite_geb s m e k = true <-> (inject_Z k <= finite_value s m e)%Q.
Proof.
  unfold finite_geb, finite_value.
  destruct (Z.leb_spec 0 e) as [He | He].
  - rewrite Qle_inject_Z. apply Z.leb_le.
  - assert (Hp : 0 < 2 ^ (- e)) by (apply Z.pow_pos_nonneg; lia).
    unfold Qle. cbn [Qnum Qden inject_Z].
    rewrite Z2Pos.id by exact Hp. rewrite Z.leb_le. lia.
Qed.

Lemma py_ge_spec (v : pyval) (x : xnum) (k : Z) :
  num_value v = Some x -> (py_ge v k = true <-> x_ge x k).
Proof.
  destruct v as [ | b | z | f | s | l]; simpl; intros Hx; inversion Hx; subst; clear Hx.
  - simpl. rewrite Qle_inject_Z. apply Z.leb_le.
  - simpl. rewrite Qle_inject_Z. apply Z.leb_le.
  - destruct f as [s | s | | s m e]; simpl.
    + rewrite Qle_inject_Z. apply Z.leb_le.
    + destruct s; simpl; split; congruence.
    + split; [discriminate | tauto].
    + apply finite_geb_spec.
Qed.

Lemma x_lt_not_ge (x : xnum) (k : Z) : x_lt x k -> ~ x_ge x k.
Proof.
  destruct x as [ | neg | q]; simpl.
  - tauto.
  - intros -> ?. discriminate.
  - intros Hlt Hle. exact (Qlt_not_le _ _ Hlt Hle).
Qed.

Lemma py_ge_below (v : pyval) (x : xnum) (k : Z) :
  num_value v = Some x -> x_lt x k -> py_ge v k = false.
Proof.
  intros Hx Hlt. destruct (py_ge v k) eqn:E; [ | reflexivity].
  apply (py_ge_spec v x k Hx) in E. destruct (x_lt_not_ge _ _ Hlt E).
Qed.

Lemma num_value_numeric (v : pyval) (x : xnum) :
  num_value v = Some x -> isinstance_int_float v = true.
Proof. destruct v; simpl; congruence. Qed.

(** The three tiers and the tier-less branch, by the outcome of the
    comparisons the code makes. *)
Lemma tier_trillion (num : pyval) :
  isinstance_int_float num = true ->
  py_ge num 1000000000000 = true ->
  quotient_fits num 1000000000000 ->
  tier_output num 1000000000000 " Trillion".
Proof.
  intros Hn Hge Hfit. unfold tier_output, format_large_number.
  rewrite Hn, Hge.
  pose proof dbl_overflow_large as Hd.
  destruct num as [ | b | z | f | s | l]; try discriminate; simpl in *.
  - destruct b; simpl in Hge; discriminate.
  - rewrite (int_true_divide_fits _ _ Hfit). eexists; split; reflexivity.
  - eexists; split; reflexivity.
Qed.

Lemma tier_billion (num : pyval) :
  isinstance_int_float num = true ->
  py_ge num 1000000000000 = false ->
  py_ge num 1000000000 = true ->
  tier_output num 1000000000 " Billion".
Proof.
  intros Hn Hlt Hge. unfold tier_output, format_large_number.
  rewrite Hn, Hlt, Hge.
  pose proof dbl_overflow_large as Hd.
  destruct num as [ | b | z | f | s | l]; try discriminate; simpl in *.
  - destruct b; simpl in Hge; discriminate.
  - rewrite int_true_divide_fits by lia. eexists; split; reflexivity.
  - eexists; split; reflexivity.
Qed.

Lemma tier_million (num : pyval) :
  isinstance_int_float num = true ->
  py_ge num 1000000000 = false ->
  py_ge num 1000000 = true ->
  tier_output num 1000000 " Million".
Proof.
  intros Hn Hlt Hge. unfold tier_output, format_large_number.
  rewrite Hn, Hge.
  assert (H12 : py_ge num 1000000000000 = false).
  { destruct num as [ | b | z | f | s | l]; try discriminate; simpl in *;
      try lia.
    destruct f as [s | s | | s m e]; simpl in *; try lia; try assumption.
    unfold finite_geb in *.
    destruct (Z.leb_spec 0 e); [lia | ].
    assert (0 < 2 ^ (- e)) by (apply Z.pow_pos_nonneg; lia).
    nia. }
  rewrite H12, Hlt.
  pose proof dbl_overflow_large as Hd.
  destruct num as [ | b | z | f | s | l]; try discriminate; simpl in *.
  - destruct b; simpl in Hge; discriminate.
  - rewrite int_true_divide_fits by lia. eexists; split; reflexivity.
  - eexists; split; reflexivity.
Qed.

Lemma append_assoc (a b c : string) : (a +:+ b) +:+ c = a +:+ (b +:+ c).
Proof.
  induction a as [ | x a IH]; [reflexivity | ].
  change (String x ((a +:+ b) +:+ c) = String x (a +:+ (b +:+ c))).
  f_equal. exact IH.
Qed.

(** A tier name starts with a space; the digits of a number hold none. *)
Lemma has_space_app (a b : string) :
  has_space (a +:+ b) = has_space a || has_space b.
Proof.
  induction a as [ | c a IH]; simpl; [reflexivity | ].
  rewrite IH. apply orb_assoc.
Qed.

Lemma has_space_uint (d : Decimal.uint) :
  has_space (NilEmpty.string_of_uint d) = false.
Proof. induction d; simpl; assumption || reflexivity. Qed.

Lemma has_space_dec (n : Z) : has_space (dec n) = false.
Proof.
  unfold dec, NilZero.string_of_uint.
  destruct (N.to_uint (Z.to_N n)) eqn:E; try reflexivity;
    rewrite <- E; apply has_space_uint.
Qed.

Lemma has_space_float_2f (f : spec_float) : has_space (float_2f f) = false.
Proof.
  assert (Hfix : forall h, has_space (fixed2 h) = false).
  { intros h. unfold fixed2, two_digits.
    rewrite !has_space_app, has_space_dec.
    destruct (h mod 100 <? 10); rewrite ?has_space_app, has_space_dec; reflexivity. }
  destruct f as [s | s | | s m e]; unfold float_2f;
    try (destruct s; reflexivity); try reflexivity.
  rewrite has_space_app, Hfix. destruct s; reflexivity.
Qed.

Lemma ends_with_space (suffix s : string) :
  has_space suffix = true -> ends_with suffix s -> has_space s = true.
Proof.
  intros Hs [p ->]. rewrite has_space_app, Hs. apply orb_true_r.
Qed.

Lemma no_space_no_tier (s : string) : has_space s = false -> ~ has_tier s.
Proof.
  intros Hs [H | [H | H]];
    apply ends_with_space in H; try reflexivity; congruence.
Qed.

Lemma format_2f_fits (num : pyval) :
  isinstance_int_float num = true ->
  quotient_fits num 1 ->
  exists s, format_2f num = Ok s /\ has_space s = false.
Proof.
  intros Hn Hfit.
  pose proof dbl_overflow_large as Hd.
  destruct num as [ | b | z | f | s | l]; try discriminate; simpl in *.
  - rewrite int_to_float_fits by (destruct b; simpl; lia).
    eexists; split; [reflexivity | apply has_space_float_2f].
  - rewrite int_to_float_fits by lia.
    eexists; split; [reflexivity | apply has_space_float_2f].
  - eexists; split; [reflexivity | apply has_space_float_2f].
Qed.

Lemma tier_none (num : pyval) :
  isinstance_int_float num = true ->
  py_ge num 1000000000000 = false ->
  py_ge num 1000000000 = false ->
  py_ge num 1000000 = false ->
  quotient_fits num 1 ->
  exists s, format_2f num = Ok s /\
            format_large_number num = Ok (rupee +:+ s) /\
            ~ has_tier (rupee +:+ s).
Proof.
  intros Hn H12 H9 H6 Hfit.
  destruct (format_2f_fits num Hn Hfit) as [s [Hs Hsp]].
  exists s. split; [exact Hs | ]. split.
  - unfold format_large_number. rewrite Hn, H12, H9, H6, Hs. reflexivity.
  - apply no_space_no_tier. rewrite has_space_app, Hsp. reflexivity.
Qed.

Lemma x_lt_le_trans (x : xnum) (a b : Z) : x_lt x a -> a <= b -> x_lt x b.
Proof.
  destruct x as [ | neg | q]; simpl; try tauto.
  intros Hlt Hab. eapply Qlt_le_trans; [exact Hlt | ].
  apply Qle_inject_Z. exact Hab.
Qed.

(** C1 (as amended).  A numeric value at or above 10^12 is formatted as
    the currency symbol, the value divided by 10^12 to 2 decimals and
    " Trillion"; from 10^9 up to (not including) 10^12 likewise with 10^9 and
    " Billion"; from 10^6 up to 10^9 with 10^6 and " Million"; below 10^6 as
    the currency symbol and the value to 2 decimals, with no tier name at
    the end.  The bounds 10^6, 10^9 and 10^12 themselves belong to the
    higher tier.  For an int this holds when the quotient (below 10^6 the int
    itself) is within the range of a float. *)
Theorem format_large_number_tiers (num : pyval) (x : xnum) :
  num_value num = Some x ->
  (x_ge x 1000000000000 -> quotient_fits num 1000000000000 ->
   tier_output num 1000000000000 " Trillion") /\
  (x_ge x 1000000000 -> x_lt x 1000000000000 ->
   tier_output num 1000000000 " Billion") /\
  (x_ge x 1000000 -> x_lt x 1000000000 ->
   tier_output num 1000000 " Million") /\
  (x_lt x 1000000 -> quotient_fits num 1 ->
   exists s, format_2f num = Ok s /\
             format_large_number num = Ok (rupee +:+ s) /\
             ~ has_tier (rupee +:+ s)).
Proof.
  intros Hx. pose proof (num_value_numeric _ _ Hx) as Hn.
  repeat split.
  - intros Hge Hfit. apply tier_trillion; try assumption.
    apply (py_ge_spec _ _ _ Hx). exact Hge.
  - intros Hge Hlt. apply tier_billion; try assumption.
    + apply (py_ge_below _ _ _ Hx). exact Hlt.
    + apply (py_ge_spec _ _ _ Hx). exact Hge.
  - intros Hge Hlt. apply tier_million; try assumption.
    + apply (py_ge_below _ _ _ Hx). exact Hlt.
    + apply (py_ge_spec _ _ _ Hx). exact Hge.
  - intros Hlt Hfit. apply tier_none; try assumption.
    + apply (py_ge_below _ _ _ Hx). apply (x_lt_le_trans _ _ _ Hlt). lia.
    + apply (py_ge_below _ _ _ Hx). apply (x_lt_le_trans _ _ _ Hlt). lia.
    + apply (py_ge_below _ _ _ Hx). exact Hlt.
Qed.

Lemma format_large_number_tiers_witness :
  tier_output (PyInt 2500000000000) 1000000000000 " Trillion".
Proof.
  apply (proj1 (format_large_number_tiers (PyInt 2500000000000) _ eq_refl)).
  - simpl. unfold Qle. simpl. lia.
  - simpl. vm_compute. reflexivity.
Defined.

(** C1, as stated, fails: an int at or above 10^12 whose quotient by 10^12
    is beyond the range of a float gets no string at all, the division
    raises OverflowError. *)
Lemma format_large_number_huge_int_raises :
  num_value (PyInt (10 ^ 400)) = Some (XFin (inject_Z (10 ^ 400))) /\
  x_ge (XFin (inject_Z (10 ^ 400))) 1000000000000 /\
  format_large_number (PyInt (10 ^ 400)) =
    Raise (Exn OverflowError "integer division result too large for a float") /\
  ~ (exists s, format_large_number (PyInt (10 ^ 400)) = Ok s /\
               ends_with " Trillion" s).
Proof.
  assert (H : format_large_number (PyInt (10 ^ 400)) =
    Raise (Exn OverflowError "integer division result too large for a float"))
    by (vm_compute; reflexivity).
  split; [reflexivity | ]. split.
  - simpl. apply Qle_inject_Z. apply Z.leb_le. vm_compute. reflexivity.
  - split; [exact H | ]. intros [s [Hs _]]. rewrite H in Hs. discriminate.
Qed.

(** Beyond the range of a float an int is not formatted: the division, or
    below 10^6 the conversion to a float, raises. *)
Lemma format_large_number_overflow (z : Z) :
  (dbl_overflow * 1000000000000 <= z ->
   format_large_number (PyInt z) =
     Raise (Exn OverflowError "integer division result too large for a float")) /\
  (z <= - dbl_overflow ->
   format_large_number (PyInt z) =
     Raise (Exn OverflowError "int too large to convert to float")).
Proof.
  pose proof dbl_overflow_large as Hd.
  unfold format_large_number. split; intros Hz; simpl.
  - destruct (Z.leb_spec 1000000000000 z); [ | nia].
    simpl. unfold int_true_divide.
    destruct (Z.leb_spec (dbl_overflow * 1000000000000) (Z.abs z)); [reflexivity | lia].
  - destruct (Z.leb_spec 1000000000000 z); [lia | ].
    destruct (Z.leb_spec 1000000000 z); [lia | ].
    destruct (Z.leb_spec 1000000 z); [lia | ].
    simpl. unfold int_to_float.
    destruct (Z.leb_spec dbl_overflow (Z.abs z)); [reflexivity | lia].
Qed.

Example format_large_number_bounds :
  format_large_number (PyInt 1000000) = Ok "₹1.00 Million" /\
  format_large_number (PyInt 999999) = Ok "₹999999.00" /\
  format_large_number (PyInt 1000000000) = Ok "₹1.00 Billion" /\
  format_large_number (PyInt 999999999) = Ok "₹1000.00 Million" /\
  format_large_number (PyFloat (SF_of_Z 1000000000000)) = Ok "₹1.00 Trillion" /\
  format_large_number (PyFloat (SF_ratio 9999999999995 10)) = Ok "₹1000.00 Billion" /\
  format_large_number (PyFloat S754_nan) = Ok "₹nan" /\
  format_large_number (PyFloat (S754_infinity false)) = Ok "₹inf Trillion".
Proof. repeat split; vm_compute; reflexivity. Qed.

(** The bound on ints agrees with the rounding of floats: just below it an
    int rounds to the largest float, at it to infinity. *)
Example dbl_overflow_rounding :
  SF_of_Z (dbl_overflow - 1) = S754_finite false 9007199254740991 971 /\
  SF_of_Z dbl_overflow = S754_infinity false /\
  SFdiv prec emax (SF_raw (dbl_overflow * 1000000000000 - 1)) (SF_raw 1000000000000)
    = S754_finite false 9007199254740991 971 /\
  SFdiv prec emax (SF_raw (dbl_overflow * 1000000000000)) (SF_raw 1000000000000)
    = S754_infinity false.
Proof. repeat split; vm_compute; reflexivity. Qed.

(** C6 (as amended).  A numeric value that is itself, with its sign, at or
    above one million is formatted with a tier name at the end, an int as
    long as its quotient by 10^12 is within the range of a float. *)
Theorem format_large_number_tier_from_million (num : pyval) (x : xnum) :
  num_value num = Some x ->
  x_ge x 1000000 ->
  quotient_fits num 1000000000000 ->
  exists s, format_large_number num = Ok s /\ has_tier s.
Proof.
  intros Hx Hge Hfit. pose proof (num_value_numeric _ _ Hx) as Hn.
  apply (py_ge_spec _ _ _ Hx) in Hge.
  destruct (py_ge num 1000000000000) eqn:H12.
  - destruct (tier_trillion num Hn H12 Hfit) as [q [_ Hq]].
    eexists; split; [exact Hq | ].
    right; right. exists (rupee +:+ float_2f q).
    symmetry. apply append_assoc.
  - destruct (py_ge num 1000000000) eqn:H9.
    + destruct (tier_billion num Hn H12 H9) as [q [_ Hq]].
      eexists; split; [exact Hq | ].
      right; left. exists (rupee +:+ float_2f q).
      symmetry. apply append_assoc.
    + destruct (tier_million num Hn H9 Hge) as [q [_ Hq]].
      eexists; split; [exact Hq | ].
      left. exists (rupee +:+ float_2f q).
      symmetry. apply append_assoc.
Qed.

Lemma format_large_number_tier_from_million_witness :
  exists s, format_large_number (PyInt 1000000) = Ok s /\ has_tier s.
Proof.
  apply (format_large_number_tier_from_million (PyInt 1000000) _ eq_refl).
  - simpl. unfold Qle. simpl. lia.
  - simpl. vm_compute. reflexivity.
Defined.

(** C6, as stated, fails: minus five million has a magnitude above one
    million and is formatted without a tier name. *)
Lemma format_large_number_negative_no_tier :
  num_value (PyInt (-5000000)) = Some (XFin (inject_Z (-5000000))) /\
  x_ge (x_abs (XFin (inject_Z (-5000000)))) 1000000 /\
  format_large_number (PyInt (-5000000)) = Ok "₹-5000000.00" /\
  ~ has_tier "₹-5000000.00".
Proof.
  split; [reflexivity | ]. split; [ | split].
  - simpl. unfold Qle. simpl. lia.
  - vm_compute. reflexivity.
  - apply no_space_no_tier. reflexivity.
Qed.

(** C8.  A value that is not numeric, the string "N/A" among them, is
    formatted as exactly "N/A". *)
Theorem format_large_number_non_numeric (v : pyval) :
  ~ numeric v -> format_large_number v = Ok "N/A".
Proof.
  intros Hv.
  destruct v; try reflexivity; exfalso; apply Hv; constructor.
Qed.

Lemma format_large_number_non_numeric_witness :
  format_large_number (PyStr "N/A") = Ok "N/A".
Proof.
  apply (format_large_number_non_numeric (PyStr "N/A")).
  intros H. inversion H.
Defined.

(** ** Reasoning about computations *)

Lemma post_ret {A} (w : world) (a : A) (P : A -> Prop) :
  P a -> post w (ret a) P.
Proof. intros H l a' l' E. inversion E; subst. exact H. Qed.

Lemma post_lift {A} (w : world) (r : result A) (P : A -> Prop) :
  (forall a, r = Ok a -> P a) -> post w (lift r) P.
Proof. intros H l a l' E. inversion E; subst. apply H. reflexivity. Qed.

Lemma post_ask {A} (w : world) (c : call) (answer : world -> log -> result A)
    (P : A -> Prop) :
  (forall l a, answer w l = Ok a -> P a) -> post w (ask c answer) P.
Proof. intros H l a l' E. inversion E; subst. eapply H; eassumption. Qed.

Lemma post_bind {A B} (w : world) (m : M A) (k : A -> M B)
    (P : A -> Prop) (Q : B -> Prop) :
  post w m P -> (forall a, P a -> post w (k a) Q) -> post w (m ≫= k) Q.
Proof.
  intros Hm Hk l b l' E. unfold mbind, M_bind, bind in E.
  destruct (m w l) as [[a | e] l1] eqn:Em; [ | discriminate].
  eapply Hk; [eapply Hm; exact Em | exact E].
Qed.

Lemma post_any {A} (w : world) (m : M A) : post w m (fun _ => True).
Proof. intros l a l' _. exact I. Qed.

Lemma post_raises {A} (w : world) (m : M A) :
  post w m (fun _ => False) -> raises w m.
Proof.
  intros H l. destruct (m w l) as [[a | e] l'] eqn:E.
  - destruct (H l a l' E).
  - exists e. reflexivity.
Qed.

(** ** Market Data Client *)

Lemma positions_nil (label : string) (labels : list string) (i : nat) :
  positions label labels i = [] <-> ~ In label labels.
Proof.
  revert i. induction labels as [ | x labels IH]; intros i; simpl.
  - tauto.
  - destruct (String.eqb_spec x label) as [-> | Hne].
    + split; [discriminate | tauto].
    + rewrite IH. tauto.
Qed.

Lemma loc_values_raises (label : string) (df : DataFrame) :
  (exists e, loc_values label df = Raise e) <-> row_absent label df.
Proof.
  unfold loc_values, row_absent.
  rewrite <- (positions_nil label (df_index df) 0).
  destruct (positions label (df_index df) 0) as [ | i [ | j rest]].
  - split; [reflexivity | eexists; reflexivity].
  - split; [intros [e He]; discriminate | discriminate].
  - split; [intros [e He]; discriminate | discriminate].
Qed.

Lemma firstn_seq (n start len : nat) :
  firstn n (seq start len) = seq start (Nat.min n len).
Proof.
  revert start len. induction n as [ | n IH]; intros start [ | len]; simpl;
    try reflexivity.
  f_equal. apply IH.
Qed.

(** The row of a label that occurs once, over the first [n] columns. *)
Lemma loc_values_iloc (n : nat) (label : string) (df : DataFrame) (i : nat) :
  positions label (df_index df) 0 = [i] ->
  loc_values label (iloc_cols n df) = Ok (firstn n (row_values df i)).
Proof.
  intros Hp. unfold loc_values. simpl. rewrite Hp.
  unfold row_values. simpl.
  rewrite List.firstn_map, firstn_seq, List.length_firstn. reflexivity.
Qed.

Lemma get_quarterly_financials_run (ticker : string) (w : world) (l : log)
    (t : DataFrame) :
  yf_quarterly_financials w l ticker = Ok t ->
  fst (get_quarterly_financials ticker w l) =
    if df_empty t then Ok (na3, na3, na3)
    else
      rbind (loc_values "Net Income" (iloc_cols 3 t)) (fun net_profit =>
      rbind (loc_values "Total Revenue" (iloc_cols 3 t)) (fun sales =>
      rbind (loc_values "Operating Income" (iloc_cols 3 t)) (fun operating_income =>
      Ok (net_profit, sales, operating_income)))).
Proof.
  intros Ht.
  unfold get_quarterly_financials, stock_quarterly_financials, mbind, M_bind,
    bind, ask, lift, mret, M_ret, ret.
  rewrite Ht. destruct (df_empty t); simpl; [reflexivity | ].
  destruct (loc_values "Net Income" (iloc_cols 3 t)); [ | reflexivity].
  destruct (loc_values "Total Revenue" (iloc_cols 3 t)); [ | reflexivity].
  destruct (loc_values "Operating Income" (iloc_cols 3 t)); reflexivity.
Qed.

(** C5.  When the provider answers with the statement table [t]:
    an empty table gives three sequences of three "N/A"; a table that is not
    empty and has the three rows gives their values over the first 3 columns
    (for a label that occurs once, the first 3 cells of its row); and the
    function raises exactly when the table is not empty and one of the three
    rows is absent. *)
Theorem get_quarterly_financials_spec (ticker : string) (w : world) (l : log)
    (t : DataFrame) :
  yf_quarterly_financials w l ticker = Ok t ->
  let r := fst (get_quarterly_financials ticker w l) in
  (df_empty t = true -> r = Ok (na3, na3, na3)) /\
  (df_empty t = false ->
   In "Net Income" (df_index t) ->
   In "Total Revenue" (df_index t) ->
   In "Operating Income" (df_index t) ->
   exists net_profit sales operating_income,
     r = Ok (net_profit, sales, operating_income) /\
     loc_values "Net Income" (iloc_cols 3 t) = Ok net_profit /\
     loc_values "Total Revenue" (iloc_cols 3 t) = Ok sales /\
     loc_values "Operating Income" (iloc_cols 3 t) = Ok operating_income /\
     (forall i, positions "Net Income" (df_index t) 0 = [i] ->
                net_profit = firstn 3 (row_values t i)) /\
     (forall i, positions "Total Revenue" (df_index t) 0 = [i] ->
                sales = firstn 3 (row_values t i)) /\
     (forall i, positions "Operating Income" (df_index t) 0 = [i] ->
                operating_income = firstn 3 (row_values t i))) /\
  ((exists e, r = Raise e) <->
   df_empty t = false /\
   (row_absent "Net Income" t \/ row_absent "Total Revenue" t \/
    row_absent "Operating Income" t)).
Proof.
  intros Ht r. subst r. rewrite (get_quarterly_financials_run _ _ _ _ Ht).
  pose proof (loc_values_raises "Net Income" (iloc_cols 3 t)) as H1.
  pose proof (loc_values_raises "Total Revenue" (iloc_cols 3 t)) as H2.
  pose proof (loc_values_raises "Operating Income" (iloc_cols 3 t)) as H3.
  unfold row_absent in *. simpl in H1, H2, H3.
  split; [intros ->; reflexivity | ]. split.
  - intros -> I1 I2 I3.
    destruct (loc_values "Net Income" (iloc_cols 3 t)) as [np | e] eqn:E1;
      [ | exfalso; apply H1; eauto].
    destruct (loc_values "Total Revenue" (iloc_cols 3 t)) as [sa | e] eqn:E2;
      [ | exfalso; apply H2; eauto].
    destruct (loc_values "Operating Income" (iloc_cols 3 t)) as [oi | e] eqn:E3;
      [ | exfalso; apply H3; eauto].
    exists np, sa, oi. repeat split; try reflexivity.
    + intros i Hi. rewrite (loc_values_iloc 3 _ _ _ Hi) in E1. congruence.
    + intros i Hi. rewrite (loc_values_iloc 3 _ _ _ Hi) in E2. congruence.
    + intros i Hi. rewrite (loc_values_iloc 3 _ _ _ Hi) in E3. congruence.
  - destruct (df_empty t).
    + split; [intros [e He]; discriminate | intros [? _]; discriminate].
    + destruct (loc_values "Net Income" (iloc_cols 3 t)) as [np | e1]; simpl.
      2:{ split; [intros _ | eauto]. split; [reflexivity | ].
          left. apply H1. eauto. }
      destruct (loc_values "Total Revenue" (iloc_cols 3 t)) as [sa | e2]; simpl.
      2:{ split; [intros _ | eauto]. split; [reflexivity | ].
          right; left. apply H2. eauto. }
      destruct (loc_values "Operating Income" (iloc_cols 3 t)) as [oi | e3]; simpl.
      2:{ split; [intros _ | eauto]. split; [reflexivity | ].
          right; right. apply H3. eauto. }
      split; [intros [e He]; discriminate | ].
      intros [_ [Ha | [Ha | Ha]]]; [apply H1 in Ha | apply H2 in Ha | apply H3 in Ha];
        destruct Ha as [e He]; discriminate.
Qed.

Lemma get_quarterly_financials_spec_witness :
  let r := fst (get_quarterly_financials "RELIANCE.NS" no_statement_world []) in
  r = Ok (na3, na3, na3).
Proof.
  apply (get_quarterly_financials_spec "RELIANCE.NS" no_statement_world []
           empty_statement); reflexivity.
Defined.

(** ** Metrics Aggregator *)

Ltac post_step :=
  lazymatch goal with
  | |- post _ (ret _) _ => apply post_ret
  | |- post _ (_ ≫= _) _ => eapply post_bind; [apply post_any | intros ? _]
  | |- post _ (match ?x with (_, _) => _ end) _ => destruct x
  end.

Ltac post_fail :=
  lazymatch goal with
  | |- post _ (lift (Raise _) ≫= _) _ =>
      apply (post_bind _ _ _ (fun _ => False));
      [apply post_lift; intros ? ?; discriminate | intros ? []]
  end.

Lemma get_stock_info_post (ticker : string) (w : world) :
  post w (get_stock_info ticker) (fun d => map fst d = stock_info_keys).
Proof.
  unfold get_stock_info. cbv zeta. repeat post_step. reflexivity.
Qed.

(** C10.  Whenever [get_stock_info] returns, its mapping has exactly the 16
    fixed keys, in the order of the source, whatever the provider left out. *)
Theorem get_stock_info_keys (ticker : string) (w : world) (l : log)
    (d : list (string * pyval)) :
  fst (get_stock_info ticker w l) = Ok d ->
  map fst d = stock_info_keys /\ NoDup (map fst d) /\ length d = 16%nat.
Proof.
  intros H.
  assert (Hk : map fst d = stock_info_keys).
  { destruct (get_stock_info ticker w l) as [r l'] eqn:E. simpl in H. subst r.
    exact (get_stock_info_post ticker w l d l' E). }
  split; [exact Hk | ]. split.
  - rewrite Hk. apply (bool_decide_unpack _). vm_compute. exact I.
  - rewrite <- (length_map fst), Hk. reflexivity.
Qed.

Lemma get_stock_info_keys_witness :
  exists d, fst (get_stock_info "RELIANCE.NS" sample_world []) = Ok d /\
            map fst d = stock_info_keys.
Proof.
  eexists. split.
  - vm_compute. reflexivity.
  - apply (get_stock_info_keys "RELIANCE.NS" sample_world []).
    vm_compute. reflexivity.
Defined.

(** A dividend yield of 0.0234 is shown as "2.34%"; one that the provider
    reports as None or as zero is shown as "N/A". *)
Example dividend_yield_percent :
  format_2pct (PyFloat (SF_ratio 234 10000)) = Ok "2.34%" /\
  truthy PyNone = false /\ truthy (PyInt 0) = false /\
  truthy (PyFloat (S754_zero false)) = false.
Proof. repeat split; vm_compute; reflexivity. Qed.

(** The value that stands for a missing field is a string that is not
    empty: it counts as true, and the percent format rejects it. *)
Lemma missing_yield_raises (info : gmap string pyval) :
  info !! "dividendYield" = None ->
  (if truthy (info_get info "dividendYield")
   then format_2pct (info_get info "dividendYield")
   else Ok "N/A") =
  Raise (Exn ValueError "Unknown format code '%' for object of type 'str'").
Proof. intros H. unfold info_get. rewrite H. reflexivity. Qed.

(** C2.  The code does not do what the claim says of a missing dividend
    yield: when the provider's profile has no "dividendYield",
    [get_stock_info] raises instead of returning a mapping with "N/A". *)
Theorem get_stock_info_missing_yield_raises (ticker : string) (w : world) :
  (forall l info, yf_info w l ticker = Ok info -> info !! "dividendYield" = None) ->
  raises w (get_stock_info ticker).
Proof.
  intros Hw. apply post_raises.
  unfold get_stock_info, stock_info_call. cbv zeta.
  eapply post_bind; [apply post_ask; exact Hw | cbv beta; intros info Hinfo].
  rewrite (missing_yield_raises info Hinfo).
  repeat first [post_fail | post_step].
Qed.

Lemma get_stock_info_missing_yield_raises_witness :
  exists e, fst (get_stock_info "RELIANCE.NS" no_dividend_world []) = Raise e.
Proof.
  apply (get_stock_info_missing_yield_raises "RELIANCE.NS" no_dividend_world).
  intros l info H. injection H as <-. vm_compute. reflexivity.
Defined.

Example missing_yield_message :
  fst (sample_main "RELIANCE" no_dividend_world []) =
  Ok ("Error fetching data for RELIANCE.NS: Unknown format code '%' for object of type 'str'",
      None).
Proof. vm_compute. reflexivity. Qed.

(** ** Symbol Catalog Loader *)

(** C9.  When reading the catalog file raises FileNotFoundError,
    [load_stocks] returns the empty list and raises nothing. *)
Theorem load_stocks_missing_file (w : world) (l : log) (e : exn) :
  pd_read_csv w l "nse_stocks.csv" = Raise e ->
  exn_cls e = FileNotFoundError ->
  fst (load_stocks w l) = Ok [].
Proof.
  intros Hr Hc.
  unfold load_stocks, read_csv, mbind, M_bind, bind, ask.
  rewrite Hr. unfold is_FileNotFoundError. rewrite Hc. reflexivity.
Qed.

Lemma load_stocks_missing_file_witness : fst (load_stocks sample_world []) = Ok [].
Proof.
  eapply (load_stocks_missing_file sample_world []); reflexivity.
Defined.

(** ** Request Handler *)

Lemma get_quarterly_financials_empty (ticker : string) (w : world) :
  (forall l, exists t,
      yf_quarterly_financials w l ticker = Ok t /\ df_empty t = true) ->
  post w (get_quarterly_financials ticker) (fun r => r = (na3, na3, na3)).
Proof.
  intros Hw l r l' E. destruct (Hw l) as [t [Ht He]].
  pose proof (get_quarterly_financials_run ticker w l t Ht) as Hrun.
  rewrite E, He in Hrun. simpl in Hrun. congruence.
Qed.

(** The chart cannot be drawn from a value that the bar labels cannot
    format: the renderer raises at the first label at the latest. *)
Lemma plot_visualizations_unformattable (ticker : string) (v : pyval)
    (rest sales : list pyval) (quarterly_high_low : list (quarter_row spec_float))
    (e : exn) (w : world) :
  format_2f v = Raise e ->
  post w (plot_visualizations ticker (v :: rest) sales quarterly_high_low)
    (fun _ => False).
Proof.
  intros Hv. unfold plot_visualizations.
  do 4 post_step.
  apply (post_bind _ _ _ (fun _ => False)); [ | intros ? []].
  cbn [annotate_bars]. rewrite Hv. post_fail.
Qed.

Lemma main_try_empty_statement (fr : spec_float -> string)
    (sr : string -> string) (fm : list spec_float -> spec_float)
    (ticker : string) (w : world) :
  (forall l, exists t,
      yf_quarterly_financials w l ticker = Ok t /\ df_empty t = true) ->
  post w (main_try fr sr fm ticker) (fun _ => False).
Proof.
  intros Hw. unfold main_try.
  post_step.
  eapply post_bind; [apply get_quarterly_financials_empty; exact Hw | ].
  intros r ->. cbv beta iota.
  post_step.
  apply (post_bind _ _ _ (fun _ => False)); [ | intros ? []].
  eapply plot_visualizations_unformattable. reflexivity.
Qed.

Lemma main_of_raise (fr : spec_float -> string) (sr : string -> string)
    (fm : list spec_float -> spec_float) (s : string) (w : world) (l : log)
    (e : exn) :
  fst (main_try fr sr fm (s +:+ ".NS") w l) = Raise e ->
  fst (main fr sr fm s w l) =
    Ok ("Error fetching data for " +:+ (s +:+ ".NS") +:+ ": " +:+ exn_msg e, None).
Proof.
  intros H. unfold main, try_except.
  destruct (main_try fr sr fm (s +:+ ".NS") w l) as [[r | e'] l'];
    simpl in H; [discriminate | ]. injection H as ->. reflexivity.
Qed.

Lemma main_of_ok (fr : spec_float -> string) (sr : string -> string)
    (fm : list spec_float -> spec_float) (s : string) (w : world) (l : log)
    (md : string) (img : image) :
  fst (main_try fr sr fm (s +:+ ".NS") w l) = Ok (md, img) ->
  fst (main fr sr fm s w l) = Ok (md, Some img).
Proof.
  intros H. unfold main, try_except.
  destruct (main_try fr sr fm (s +:+ ".NS") w l) as [[r | e'] l'];
    simpl in H; [ | discriminate]. injection H as ->. reflexivity.
Qed.

(** C3.  The code does not do what the claim says of an empty quarterly
    statement table: the request ends in the error string and no image,
    never in a text block with "N/A" fields. *)
Theorem main_empty_statement_is_error (fr : spec_float -> string)
    (sr : string -> string) (fm : list spec_float -> spec_float)
    (s : string) (w : world) (l : log) :
  (forall l', exists t,
      yf_quarterly_financials w l' (s +:+ ".NS") = Ok t /\ df_empty t = true) ->
  exists e,
    fst (main fr sr fm s w l) =
      Ok ("Error fetching data for " +:+ (s +:+ ".NS") +:+ ": " +:+ exn_msg e, None).
Proof.
  intros Hw.
  destruct (post_raises w _ (main_try_empty_statement fr sr fm _ w Hw) l)
    as [e He].
  exists e. apply main_of_raise. exact He.
Qed.

Lemma main_empty_statement_is_error_witness :
  exists e,
    fst (sample_main "RELIANCE" no_statement_world []) =
      Ok ("Error fetching data for " +:+ ("RELIANCE" +:+ ".NS") +:+ ": " +:+ exn_msg e,
          None).
Proof.
  apply (main_empty_statement_is_error float_2f quote naive_float_mean
           "RELIANCE" no_statement_world []).
  intros l'. exists empty_statement. split; reflexivity.
Defined.

Example empty_statement_message :
  fst (sample_main "RELIANCE" no_statement_world []) =
  Ok ("Error fetching data for RELIANCE.NS: Unknown format code 'f' for object of type 'str'",
      None) /\
  fst (get_stock_info "RELIANCE.NS" no_statement_world []) =
  Ok [("Company Name", PyStr "Reliance Industries Limited");
      ("Ticker", PyStr "RELIANCE.NS");
      ("Current Price", PyStr "₹2970.00");
      ("Market Cap", PyStr "₹17.50 Trillion");
      ("PE Ratio", PyInt 22);
      ("Dividend Yield", PyStr "2.34%");
      ("EPS", PyStr "₹102.50");
      ("Revenue", PyStr "₹9.00 Trillion");
      ("Net Profit (Last Quarter)", PyStr "N/A");
      ("Sales (Last Quarter)", PyStr "N/A");
      ("Operating Income (Last Quarter)", PyStr "N/A");
      ("Beta", PyInt 1);
      ("52-Week High", PyStr "₹3025.50");
      ("52-Week Low", PyStr "₹2220.00");
      ("Sector", PyStr "Energy");
      ("Recommendation", PyStr "buy")].
Proof. split; vm_compute; reflexivity. Qed.

(** *** The log of a request *)

Lemma tracks_ret {A} (ticker : string) (a : A) : tracks ticker (ret a).
Proof.
  intros w l. exists []. repeat split; [constructor | intros c e []].
Qed.

Lemma tracks_lift {A} (ticker : string) (r : result A) : tracks ticker (lift r).
Proof.
  intros w l. exists []. repeat split; [constructor | intros c e []].
Qed.

Lemma tracks_ask {A} (ticker : string) (c : call)
    (answer : world -> log -> result A) :
  (forall t, provider_ticker c = Some t -> t = ticker) ->
  tracks ticker (ask c answer).
Proof.
  intros Hc w l. exists [(c, outcome (answer w l))]. repeat split.
  - constructor; [exact Hc | constructor].
  - intros c' e [H | []]. injection H as _ H. simpl.
    destruct (answer w l); simpl in H; congruence.
Qed.

Lemma tracks_bind {A B} (ticker : string) (m : M A) (k : A -> M B) :
  tracks ticker m -> (forall a, tracks ticker (k a)) -> tracks ticker (m ≫= k).
Proof.
  intros Hm Hk w l. unfold mbind, M_bind, bind.
  destruct (Hm w l) as [ext1 [E1 [F1 R1]]].
  destruct (m w l) as [[a | e0] l1]; simpl in E1, R1; subst l1.
  - destruct (Hk a w (ext1 ++ l)) as [ext2 [E2 [F2 R2]]].
    exists (ext2 ++ ext1). repeat split.
    + rewrite E2. apply app_assoc.
    + apply Forall_app. split; assumption.
    + intros c e Hin. apply in_app_or in Hin. destruct Hin as [Hin | Hin].
      * apply (R2 c e Hin).
      * specialize (R1 c e Hin). discriminate.
  - exists ext1. split; [reflexivity | split; [exact F1 | ]].
    intros c e Hin. specialize (R1 c e Hin). injection R1 as ->. reflexivity.
Qed.

Lemma tracks_annotate_bars (ticker : string) (axis : Z) (values : list pyval) :
  forall i, tracks ticker (annotate_bars axis i values).
Proof.
  induction values as [ | v values IH]; intros i; cbn [annotate_bars].
  - apply tracks_ret.
  - apply tracks_bind; [apply tracks_lift | intros s].
    apply tracks_bind; [apply tracks_ask; discriminate | intros _].
    apply IH.
Qed.

Ltac tracks_step :=
  lazymatch goal with
  | |- tracks _ (ret _) => apply tracks_ret
  | |- tracks _ (lift _) => apply tracks_lift
  | |- tracks _ (annotate_bars _ _ _) => apply tracks_annotate_bars
  | |- tracks _ (ask _ _) =>
      apply tracks_ask; simpl; intros ? ?; congruence
  | |- tracks _ (_ ≫= _) => apply tracks_bind; [ | intros ?]
  | |- tracks _ (match ?x with (_, _) => _ end) => destruct x
  | |- tracks _ (if ?b then _ else _) => destruct b
  end.

Lemma tracks_get_quarterly_financials (ticker : string) :
  tracks ticker (get_quarterly_financials ticker).
Proof.
  unfold get_quarterly_financials, stock_quarterly_financials.
  repeat tracks_step.
Qed.

Lemma tracks_get_stock_info (ticker : string) :
  tracks ticker (get_stock_info ticker).
Proof.
  unfold get_stock_info, stock_info_call, stock_history. cbv zeta.
  repeat first [apply tracks_get_quarterly_financials | tracks_step].
Qed.

Lemma tracks_plot_visualizations (ticker : string) (net_profit sales : list pyval)
    (quarterly_high_low : list (quarter_row spec_float)) :
  tracks ticker (plot_visualizations ticker net_profit sales quarterly_high_low).
Proof.
  unfold plot_visualizations, mpl_call, savefig, image_open. cbv zeta.
  repeat tracks_step.
Qed.

Lemma tracks_main_try (fr : spec_float -> string) (sr : string -> string)
    (fm : list spec_float -> spec_float) (ticker : string) :
  tracks ticker (main_try fr sr fm ticker).
Proof.
  unfold main_try, calculate_quarterly_averages, stock_history. cbv zeta.
  repeat first [apply tracks_get_quarterly_financials
               | apply tracks_get_stock_info
               | apply tracks_plot_visualizations
               | tracks_step].
Qed.

(** C4.  For every symbol [s], with [s.NS] the qualified ticker:
    the request ends either in the text block with the image, or, when
    its pipeline raises an exception [e], in exactly the pair of
    "Error fetching data for s.NS: " followed by the message of [e], and no
    image; every call to the provider is for [s.NS]; and an exception that a
    library call raised is the one that the error string reports. *)
Theorem main_error_path (fr : spec_float -> string) (sr : string -> string)
    (fm : list spec_float -> spec_float) (s : string) (w : world) (l : log) :
  let ticker := s +:+ ".NS" in
  let error e :=
    ("Error fetching data for " +:+ ticker +:+ ": " +:+ exn_msg e, @None image) in
  let out := fst (main fr sr fm s w l) in
  ((exists md img, fst (main_try fr sr fm ticker w l) = Ok (md, img) /\
                   out = Ok (md, Some img)) \/
   (exists e, fst (main_try fr sr fm ticker w l) = Raise e /\
              out = Ok (error e))) /\
  exists ext,
    snd (main fr sr fm s w l) = ext ++ l /\
    Forall (uses_ticker ticker) ext /\
    (forall c e, In (c, Some e) ext -> out = Ok (error e)).
Proof.
  intros ticker error out. split.
  - destruct (fst (main_try fr sr fm ticker w l)) as [[md img] | e] eqn:E.
    + left. exists md, img. split; [reflexivity | ].
      apply main_of_ok. exact E.
    + right. exists e. split; [reflexivity | ].
      apply main_of_raise. exact E.
  - destruct (tracks_main_try fr sr fm ticker w l) as [ext [E [F R]]].
    exists ext. repeat split.
    + unfold main, try_except. fold ticker.
      destruct (main_try fr sr fm ticker w l) as [[r | e] l']; exact E.
    + exact F.
    + intros c e Hin. apply main_of_raise. apply (R c e Hin).
Qed.

(** ** Quarterly Averager *)

Section GroupByFacts.
Context {R : Type} (key : R -> Z).

Lemma group_add_keys (k : Z) (r : R) (gs : list (Z * list R)) (k' : Z) :
  In k' (map fst (group_add k r gs)) <-> k' = k \/ In k' (map fst gs).
Proof.
  induction gs as [ | [k0 rs] gs IH]; simpl.
  - intuition.
  - destruct (Z.ltb_spec k k0); simpl; [intuition | ].
    destruct (Z.eqb_spec k k0); simpl; [subst; intuition | ].
    rewrite IH. intuition.
Qed.

Lemma group_add_sorted (k : Z) (r : R) (gs : list (Z * list R)) :
  StronglySorted Z.lt (map fst gs) ->
  StronglySorted Z.lt (map fst (group_add k r gs)).
Proof.
  induction gs as [ | [k0 rs] gs IH]; simpl; intros Hs.
  - repeat constructor.
  - inversion Hs as [ | ? ? Hs' Hall]; subst.
    destruct (Z.ltb_spec k k0); simpl.
    + constructor; [exact Hs | ].
      constructor; [assumption | ].
      eapply List.Forall_impl; [ | exact Hall]. simpl. intros; lia.
    + destruct (Z.eqb_spec k k0); simpl; [exact Hs | ].
      constructor; [apply IH; exact Hs' | ].
      apply List.Forall_forall. intros k' Hk'.
      apply group_add_keys in Hk'. destruct Hk' as [-> | Hk']; [lia | ].
      rewrite List.Forall_forall in Hall. apply Hall. exact Hk'.
Qed.

(** What a group of the new list is, in terms of the old one. *)
Lemma group_add_group (k : Z) (r : R) (gs : list (Z * list R))
    (k' : Z) (rs' : list R) :
  StronglySorted Z.lt (map fst gs) ->
  In (k', rs') (group_add k r gs) ->
  (k' = k /\ ((~ In k (map fst gs) /\ rs' = [r]) \/
              (exists rs, In (k, rs) gs /\ rs' = rs ++ [r]))) \/
  (k' <> k /\ In (k', rs') gs).
Proof.
  induction gs as [ | [k0 rs] gs IH]; simpl; intros Hs Hin.
  - destruct Hin as [Hin | []]. injection Hin as <- <-.
    left. split; [reflexivity | left; split; [tauto | reflexivity]].
  - inversion Hs as [ | ? ? Hs' Hall]; subst.
    rewrite List.Forall_forall in Hall.
    destruct (Z.ltb_spec k k0); simpl in Hin.
    + destruct Hin as [Hin | [Hin | Hin]].
      * injection Hin as <- <-. left. split; [reflexivity | left].
        split; [ | reflexivity]. intros [-> | Hk]; [lia | ].
        specialize (Hall _ Hk). lia.
      * injection Hin as <- <-. right. split; [lia | left; reflexivity].
      * right. split; [ | right; exact Hin].
        assert (Hk : In k' (map fst gs)) by (apply (in_map fst _ _ Hin)).
        specialize (Hall _ Hk). lia.
    + destruct (Z.eqb_spec k k0); simpl in Hin.
      * subst k0. destruct Hin as [Hin | Hin].
        -- injection Hin as <- <-. left. split; [reflexivity | right].
           exists rs. split; [left; reflexivity | reflexivity].
        -- right. split; [ | right; exact Hin].
           assert (Hk : In k' (map fst gs)) by (apply (in_map fst _ _ Hin)).
           specialize (Hall _ Hk). lia.
      * destruct Hin as [Hin | Hin].
        -- injection Hin as <- <-. right. split; [lia | left; reflexivity].
        -- destruct (IH Hs' Hin) as [[-> [[Hno ->] | [rs0 [Hrs0 ->]]]] | [Hne Hold]].
           ++ left. split; [reflexivity | left]. split; [ | reflexivity].
              intros [Heq | Hk]; [lia | tauto].
           ++ left. split; [reflexivity | right].
              exists rs0. split; [right; exact Hrs0 | reflexivity].
           ++ right. split; [exact Hne | right; exact Hold].
Qed.

Lemma filter_absent (rows : list R) (gs : list (Z * list R)) (k : Z) :
  grouped key rows gs -> ~ In k (map fst gs) ->
  List.filter (fun r => key r =? k) rows = [].
Proof.
  intros [_ [_ Hall]] Hno.
  induction rows as [ | r rows IH]; simpl; [reflexivity | ].
  destruct (Z.eqb_spec (key r) k) as [E | E].
  - exfalso. apply Hno. rewrite <- E. apply Hall. left. reflexivity.
  - apply IH. intros r' Hr'. apply Hall. right. exact Hr'.
Qed.

Lemma grouped_step (rows : list R) (gs : list (Z * list R)) (r : R) :
  grouped key rows gs -> grouped key (rows ++ [r]) (group_add (key r) r gs).
Proof.
  intros Hg. pose proof Hg as [Hs [Hrows Hall]]. split; [ | split].
  - apply group_add_sorted. exact Hs.
  - intros k rs Hin. rewrite List.filter_app. simpl.
    destruct (group_add_group _ _ _ _ _ Hs Hin)
      as [[-> [[Hno ->] | [rs0 [Hrs0 ->]]]] | [Hne Hold]].
    + rewrite (filter_absent rows gs _ Hg Hno), Z.eqb_refl.
      split; [reflexivity | discriminate].
    + rewrite Z.eqb_refl. destruct (Hrows _ _ Hrs0) as [-> _].
      split; [reflexivity | ].
      intros E. apply app_eq_nil in E. destruct E as [_ E]. discriminate.
    + destruct (Z.eqb_spec (key r) k); [congruence | ].
      rewrite app_nil_r. apply (Hrows _ _ Hold).
  - intros r' Hr'. apply group_add_keys.
    apply in_app_or in Hr'. destruct Hr' as [Hr' | [<- | []]].
    + right. apply Hall. exact Hr'.
    + left. reflexivity.
Qed.

Lemma grouped_fold (rows pre : list R) (gs : list (Z * list R)) :
  grouped key pre gs ->
  grouped key (pre ++ rows) (fold_left (fun gs r => group_add (key r) r gs) rows gs).
Proof.
  revert pre gs. induction rows as [ | r rows IH]; intros pre gs Hg; simpl.
  - rewrite app_nil_r. exact Hg.
  - replace (pre ++ r :: rows) with ((pre ++ [r]) ++ rows)
      by (rewrite <- app_assoc; reflexivity).
    apply IH. apply grouped_step. exact Hg.
Qed.

Lemma groupby_grouped (rows : list R) : grouped key rows (groupby key rows).
Proof.
  apply (grouped_fold rows [] []).
  split; [apply SSorted_nil | split; [intros k rs [] | intros r []]].
Qed.
End GroupByFacts.

(** The number of a quarter orders dates as the calendar does: by year,
    then by quarter of the year. *)
Lemma to_period_Q_calendar (d1 d2 : date) :
  1 <= month d1 <= 12 -> 1 <= month d2 <= 12 ->
  (to_period_Q d1 < to_period_Q d2 <->
   year d1 < year d2 \/
   (year d1 = year d2 /\ calendar_quarter d1 < calendar_quarter d2)) /\
  (to_period_Q d1 = to_period_Q d2 <->
   year d1 = year d2 /\ calendar_quarter d1 = calendar_quarter d2).
Proof.
  unfold to_period_Q, calendar_quarter. intros H1 H2.
  pose proof (Z.div_mod (month d1 - 1) 3 ltac:(lia)) as E1.
  pose proof (Z.mod_pos_bound (month d1 - 1) 3 ltac:(lia)) as B1.
  pose proof (Z.div_mod (month d2 - 1) 3 ltac:(lia)) as E2.
  pose proof (Z.mod_pos_bound (month d2 - 1) 3 ltac:(lia)) as B2.
  set (q1 := (month d1 - 1) / 3) in *. set (q2 := (month d2 - 1) / 3) in *.
  lia.
Qed.












(** * Further properties *)

(** ** Number Formatter *)

Lemma format_large_number_int_in_range (z : Z) :
  ~ beyond_float z -> exists s, format_large_number (PyInt z) = Ok s.
Proof.
  unfold beyond_float. intros Hz.
  pose proof dbl_overflow_large as Hd.
  unfold format_large_number. simpl.
  destruct (Z.leb_spec 1000000000000 z).
  - simpl. rewrite int_true_divide_fits by lia. eexists; reflexivity.
  - destruct (Z.leb_spec 1000000000 z).
    + simpl. rewrite int_true_divide_fits by lia. eexists; reflexivity.
    + destruct (Z.leb_spec 1000000 z).
      * simpl. rewrite int_true_divide_fits by lia. eexists; reflexivity.
      * simpl. rewrite int_to_float_fits by lia. eexists; reflexivity.
Qed.

Lemma format_large_number_float_ok (f : spec_float) :
  exists s, format_large_number (PyFloat f) = Ok s.
Proof.
  unfold format_large_number. cbn [isinstance_int_float].
  destruct (py_ge (PyFloat f) 1000000000000); [eexists; reflexivity | ].
  destruct (py_ge (PyFloat f) 1000000000); [eexists; reflexivity | ].
  destruct (py_ge (PyFloat f) 1000000); eexists; reflexivity.
Qed.

(** X1.  The formatter raises for exactly one kind of input: an int too
    large in magnitude for a float (at or above (2^1024 - 2^970) * 10^12, or
    at or below -(2^1024 - 2^970)).  What it raises is an OverflowError.
    Every other value, of any type, is formatted. *)
Theorem format_large_number_raises_iff (v : pyval) :
  ((exists e, format_large_number v = Raise e) <->
   (exists z, v = PyInt z /\ beyond_float z)) /\
  (forall e, format_large_number v = Raise e -> exn_cls e = OverflowError).
Proof.
  split; [split | ].
  - intros [e He]. destruct v as [ | b | z | f | s | l]; try discriminate.
    + destruct b; discriminate.
    + exists z. split; [reflexivity | ].
      destruct (Z.le_gt_cases (dbl_overflow * 1000000000000) z) as [H | H];
        [left; exact H | ].
      destruct (Z.le_gt_cases z (- dbl_overflow)) as [H' | H'];
        [right; exact H' | ].
      destruct (format_large_number_int_in_range z) as [s Hs];
        [unfold beyond_float; lia | congruence].
    + destruct (format_large_number_float_ok f) as [s Hs]. congruence.
  - intros [z [-> [Hz | Hz]]].
    + eexists. apply (proj1 (format_large_number_overflow z) Hz).
    + eexists. apply (proj2 (format_large_number_overflow z) Hz).
  - intros e He. destruct v as [ | b | z | f | s | l]; try discriminate.
    + destruct b; discriminate.
    + destruct (Z.le_gt_cases (dbl_overflow * 1000000000000) z) as [H | H].
      { rewrite (proj1 (format_large_number_overflow z) H) in He.
        injection He as <-. reflexivity. }
      destruct (Z.le_gt_cases z (- dbl_overflow)) as [H' | H'].
      { rewrite (proj2 (format_large_number_overflow z) H') in He.
        injection He as <-. reflexivity. }
      destruct (format_large_number_int_in_range z) as [s Hs];
        [unfold beyond_float; lia | congruence].
    + destruct (format_large_number_float_ok f) as [s Hs]. congruence.
Qed.

Lemma rupee_not_na (t : string) : rupee +:+ t <> "N/A".
Proof. discriminate. Qed.

(** X2.  A formatted numeric value starts with the currency symbol, and
    "N/A" is the output of the values that are not numeric and of no other:
    a reader of the output can tell a missing value from a number. *)
Theorem format_large_number_shape (v : pyval) (s : string) :
  format_large_number v = Ok s ->
  (~ numeric v /\ s = "N/A") \/
  (numeric v /\ s <> "N/A" /\ exists t, s = rupee +:+ t).
Proof.
  intros H.
  destruct v as [ | b | z | f | s0 | l];
    try (left; split; [intros N; inversion N | injection H as <-; reflexivity]);
    right; (split; [constructor | ]);
    unfold format_large_number in H; cbn [isinstance_int_float] in H;
    repeat match type of H with
           | (if ?c then _ else _) = _ => destruct c
           | rbind ?r _ = _ => destruct r; cbn [rbind] in H; [ | discriminate]
           end;
    injection H as <-; (split; [apply rupee_not_na | eexists; reflexivity]).
Qed.

Lemma format_large_number_shape_witness :
  (~ numeric (PyInt 2500000) /\ "₹2.50 Million" = "N/A") \/
  (numeric (PyInt 2500000) /\ "₹2.50 Million" <> "N/A" /\
   exists t, "₹2.50 Million" = rupee +:+ t).
Proof.
  apply (format_large_number_shape (PyInt 2500000) "₹2.50 Million").
  vm_compute. reflexivity.
Defined.

(** The word after the last space of a string is determined by the
    string. *)
Lemma last_word_unique (a a' b b' : string) :
  has_space b = false -> has_space b' = false ->
  a +:+ " " +:+ b = a' +:+ " " +:+ b' -> b = b'.
Proof.
  intros Hb Hb'. revert a'.
  induction a as [ | c a IH]; intros [ | c' a'] E.
  - injection E as E. exact E.
  - change (String " " b = String c' (a' +:+ " " +:+ b')) in E.
    injection E as _ E. rewrite E, has_space_app in Hb.
    apply orb_false_elim in Hb. destruct Hb as [_ Hb]. discriminate.
  - change (String c (a +:+ " " +:+ b) = String " " b') in E.
    injection E as _ E. rewrite <- E, has_space_app in Hb'.
    apply orb_false_elim in Hb'. destruct Hb' as [_ Hb']. discriminate.
  - change (String c (a +:+ " " +:+ b) = String c' (a' +:+ " " +:+ b')) in E.
    injection E as _ E. apply (IH a' E).
Qed.

Lemma ends_with_tier (pre word word' : string) :
  has_space word = false -> has_space word' = false ->
  ends_with (" " +:+ word') (pre +:+ " " +:+ word) -> word' = word.
Proof.
  intros Hw Hw' [p E]. symmetry. apply (last_word_unique pre p word word' Hw Hw' E).
Qed.

Lemma x_ge_weaken (x : xnum) (a b : Z) : x_ge x a -> b <= a -> x_ge x b.
Proof.
  destruct x as [ | neg | q]; simpl; try tauto.
  intros Hge Hab. eapply Qle_trans; [ | exact Hge].
  apply Qle_inject_Z. exact Hab.
Qed.

Lemma x_not_ge_lt (x : xnum) (k k' : Z) : x_ge x k' -> ~ x_ge x k -> x_lt x k.
Proof.
  destruct x as [ | neg | q]; simpl; try tauto.
  intros _ H. apply Qnot_le_lt. exact H.
Qed.

Lemma py_ge_false_lt (v : pyval) (x : xnum) (k k' : Z) :
  num_value v = Some x -> x_ge x k' -> py_ge v k = false -> x_lt x k.
Proof.
  intros Hx Hge Hf. apply (x_not_ge_lt x k k' Hge).
  intros H. apply (py_ge_spec v x k Hx) in H. congruence.
Qed.

(** What the formatter returned, by the comparisons it made. *)
Lemma format_large_number_cases (num : pyval) (s : string) :
  isinstance_int_float num = true ->
  format_large_number num = Ok s ->
  (py_ge num 1000000000000 = true /\
   exists q, s = (rupee +:+ float_2f q) +:+ " " +:+ "Trillion") \/
  (py_ge num 1000000000000 = false /\ py_ge num 1000000000 = true /\
   exists q, s = (rupee +:+ float_2f q) +:+ " " +:+ "Billion") \/
  (py_ge num 1000000000 = false /\ py_ge num 1000000 = true /\
   exists q, s = (rupee +:+ float_2f q) +:+ " " +:+ "Million") \/
  (py_ge num 1000000 = false /\ has_space s = false).
Proof.
  intros Hn H. unfold format_large_number in H. rewrite Hn in H.
  destruct (py_ge num 1000000000000) eqn:H12.
  { left. split; [reflexivity | ].
    destruct (py_truediv num 1000000000000) as [q | e]; [ | discriminate].
    injection H as <-. exists q. symmetry.
    apply (append_assoc rupee (float_2f q)). }
  right. destruct (py_ge num 1000000000) eqn:H9.
  { left. split; [reflexivity | split; [reflexivity | ]].
    destruct (py_truediv num 1000000000) as [q | e]; [ | discriminate].
    injection H as <-. exists q. symmetry.
    apply (append_assoc rupee (float_2f q)). }
  right. destruct (py_ge num 1000000) eqn:H6.
  { left. split; [reflexivity | split; [reflexivity | ]].
    destruct (py_truediv num 1000000) as [q | e]; [ | discriminate].
    injection H as <-. exists q. symmetry.
    apply (append_assoc rupee (float_2f q)). }
  right. split; [reflexivity | ].
  destruct (format_2f num) as [t | e] eqn:Ht; [ | discriminate].
  injection H as <-. rewrite has_space_app.
  destruct num as [ | b | z | f | s0 | l]; try discriminate; simpl in Ht.
  - destruct (int_to_float (Z.b2z b)); [ | discriminate].
    injection Ht as <-. rewrite has_space_float_2f. reflexivity.
  - destruct (int_to_float z); [ | discriminate].
    injection Ht as <-. rewrite has_space_float_2f. reflexivity.
  - injection Ht as <-. rewrite has_space_float_2f. reflexivity.
Qed.

(** X3.  The tier name at the end of a formatted number tells the range of
    the number: " Trillion" exactly for values at or above 10^12, " Billion"
    exactly from 10^9 up to 10^12, " Million" exactly from 10^6 up to 10^9
    (the upper bounds excluded). *)
Theorem tier_suffix_range (num : pyval) (x : xnum) (s : string) :
  num_value num = Some x ->
  format_large_number num = Ok s ->
  (ends_with " Trillion" s <-> x_ge x 1000000000000) /\
  (ends_with " Billion" s <-> x_ge x 1000000000 /\ x_lt x 1000000000000) /\
  (ends_with " Million" s <-> x_ge x 1000000 /\ x_lt x 1000000000).
Proof.
  intros Hx Hs. pose proof (num_value_numeric _ _ Hx) as Hn.
  assert (Hword : forall pre word word',
             has_space word = false -> has_space word' = false ->
             word' <> word ->
             ~ ends_with (" " +:+ word') (pre +:+ " " +:+ word)).
  { intros pre word word' Hw Hw' Hne He.
    apply Hne. apply (ends_with_tier pre word word' Hw Hw' He). }
  assert (Hends : forall pre word, ends_with (" " +:+ word) (pre +:+ " " +:+ word))
    by (intros pre word; exists pre; reflexivity).
  assert (Hlow : forall a b, x_ge x a -> x_lt x b -> b <= a -> False).
  { intros a b Ha Hb Hab.
    apply (x_lt_not_ge x b Hb). apply (x_ge_weaken x a b Ha Hab). }
  assert (Hyes : forall A B : Prop, A -> B -> (A <-> B)) by tauto.
  assert (Hnot : forall A B : Prop, ~ A -> ~ B -> (A <-> B)) by tauto.
  destruct (format_large_number_cases num s Hn Hs)
    as [[H12 [q ->]] | [[H12 [H9 [q ->]]] | [[H9 [H6 [q ->]]] | [H6 Hsp]]]].
  - apply (py_ge_spec _ _ _ Hx) in H12.
    split; [apply Hyes; [apply Hends | exact H12] | ].
    split; apply Hnot;
      try (apply Hword; [reflexivity .. | discriminate]);
      intros [_ Hlt]; apply (Hlow _ _ H12 Hlt); lia.
  - apply (py_ge_spec _ _ _ Hx) in H9.
    pose proof (py_ge_false_lt _ _ _ _ Hx H9 H12) as Hlt12.
    split; [apply Hnot | split; [apply Hyes | apply Hnot]];
      try (apply Hword; [reflexivity .. | discriminate]).
    + apply (x_lt_not_ge _ _ Hlt12).
    + apply Hends.
    + split; assumption.
    + intros [_ Hlt]. apply (Hlow _ _ H9 Hlt). lia.
  - apply (py_ge_spec _ _ _ Hx) in H6.
    pose proof (py_ge_false_lt _ _ _ _ Hx H6 H9) as Hlt9.
    split; [apply Hnot | split; [apply Hnot | apply Hyes]];
      try (apply Hword; [reflexivity .. | discriminate]).
    + intros Hge. apply (Hlow _ _ Hge Hlt9). lia.
    + intros [Hge _]. apply (Hlow _ _ Hge Hlt9). lia.
    + apply Hends.
    + split; assumption.
  - assert (Hno : forall k, 1000000 <= k -> ~ x_ge x k).
    { intros k Hk Hge. apply (x_ge_weaken x k 1000000) in Hge; [ | exact Hk].
      apply (py_ge_spec _ _ _ Hx) in Hge. congruence. }
    assert (Ht : forall suffix, has_space suffix = true -> ~ ends_with suffix s).
    { intros suffix Hsuf He. apply (ends_with_space _ _ Hsuf) in He. congruence. }
    split; [apply Hnot | split; apply Hnot]; try (apply Ht; reflexivity).
    + apply Hno. lia.
    + intros [Hge _]. apply (Hno 1000000000 ltac:(lia) Hge).
    + intros [Hge _]. apply (Hno 1000000 ltac:(lia) Hge).
Qed.

Lemma tier_suffix_range_witness :
  (ends_with " Trillion" "₹999.50 Billion" <->
   x_ge (XFin (inject_Z 999500000000)) 1000000000000) /\
  (ends_with " Billion" "₹999.50 Billion" <->
   x_ge (XFin (inject_Z 999500000000)) 1000000000 /\
   x_lt (XFin (inject_Z 999500000000)) 1000000000000) /\
  (ends_with " Million" "₹999.50 Billion" <->
   x_ge (XFin (inject_Z 999500000000)) 1000000 /\
   x_lt (XFin (inject_Z 999500000000)) 1000000000).
Proof.
  apply (tier_suffix_range (PyInt 999500000000) _ "₹999.50 Billion").
  - reflexivity.
  - vm_compute. reflexivity.
Defined.

(** ** Market Data Client *)

Lemma positions_bound (label : string) (labels : list string) (i j : nat) :
  In j (positions label labels i) -> (i <= j)%nat.
Proof.
  revert i. induction labels as [ | x labels IH]; intros i; simpl; [tauto | ].
  destruct (String.eqb x label); simpl.
  - intros [<- | H]; [lia | apply IH in H; lia].
  - intros H. apply IH in H. lia.
Qed.

Lemma positions_once (label : string) (labels : list string) (i : nat) :
  List.NoDup labels -> In label labels ->
  exists j, positions label labels i = [j].
Proof.
  revert i. induction labels as [ | x labels IH]; intros i Hnd Hin; [destruct Hin | ].
  inversion Hnd as [ | ? ? Hx Hnd']; subst. simpl.
  destruct (String.eqb_spec x label) as [-> | Hne].
  - exists i. f_equal. apply (positions_nil label labels (S i)). exact Hx.
  - destruct Hin as [E | Hin]; [congruence | ]. apply IH; assumption.
Qed.

Lemma row_values_length (df : DataFrame) (i : nat) :
  length (row_values df i) = length (df_columns df).
Proof. unfold row_values. rewrite length_map, length_seq. reflexivity. Qed.

(** X4.  For a statement table with distinct row labels that is not empty,
    the three sequences that are returned have the same length, the number of
    columns when that is 1 or 2 and 3 otherwise: there are three values for
    the three bars of a chart only when the provider has three quarters. *)
Theorem get_quarterly_financials_lengths (ticker : string) (w : world) (l : log)
    (t : DataFrame) (net_profit sales operating_income : list pyval) :
  yf_quarterly_financials w l ticker = Ok t ->
  df_empty t = false ->
  NoDup (df_index t) ->
  fst (get_quarterly_financials ticker w l) =
    Ok (net_profit, sales, operating_income) ->
  let n := Nat.min 3 (length (df_columns t)) in
  (1 <= n)%nat /\
  length net_profit = n /\ length sales = n /\ length operating_income = n.
Proof.
  intros Ht He Hnd Hr n. apply NoDup_ListNoDup in Hnd.
  rewrite (get_quarterly_financials_run _ _ _ _ Ht), He in Hr.
  assert (Hrow : forall label vs,
             loc_values label (iloc_cols 3 t) = Ok vs -> length vs = n).
  { intros label vs Hv.
    destruct (positions label (df_index t) 0) as [ | j rest] eqn:Hp.
    - unfold loc_values in Hv. simpl in Hv. rewrite Hp in Hv. discriminate.
    - assert (Hin : In label (df_index t)).
      { destruct (in_dec string_dec label (df_index t)) as [H | H]; [exact H | ].
        apply (positions_nil label (df_index t) 0) in H. congruence. }
      destruct (positions_once label (df_index t) 0 Hnd Hin) as [j' Hj].
      rewrite (loc_values_iloc 3 label t j' Hj) in Hv. injection Hv as <-.
      rewrite List.length_firstn, row_values_length. reflexivity. }
  destruct (loc_values "Net Income" (iloc_cols 3 t)) as [np | e] eqn:E1;
    [ | discriminate].
  destruct (loc_values "Total Revenue" (iloc_cols 3 t)) as [sa | e] eqn:E2;
    [ | discriminate].
  destruct (loc_values "Operating Income" (iloc_cols 3 t)) as [oi | e] eqn:E3;
    [ | discriminate].
  simpl in Hr. injection Hr as <- <- <-.
  repeat split; try (eapply Hrow; eassumption).
  subst n. unfold df_empty in He.
  destruct (df_index t); [discriminate | ].
  destruct (df_columns t); [discriminate | simpl; lia].
Qed.

Lemma get_quarterly_financials_lengths_witness :
  let n := Nat.min 3 (length (df_columns sample_statement)) in
  (1 <= n)%nat /\
  length [PyFloat (SF_of_Z 189000000000); PyFloat (SF_of_Z 172000000000);
          PyFloat (SF_of_Z 174000000000)] = n /\
  length [PyFloat (SF_of_Z 2400000000000); PyFloat (SF_of_Z 2250000000000);
          PyFloat (SF_of_Z 2310000000000)] = n /\
  length [PyFloat (SF_of_Z 300000000000); PyFloat (SF_of_Z 280000000000);
          PyFloat (SF_of_Z 290000000000)] = n.
Proof.
  apply (get_quarterly_financials_lengths "RELIANCE.NS" sample_world []
           sample_statement).
  - reflexivity.
  - reflexivity.
  - apply (bool_decide_unpack _). vm_compute. exact I.
  - vm_compute. reflexivity.
Defined.

(** X5.  With a table that is not empty, the lookup of the three rows goes
    in the order "Net Income", "Total Revenue", "Operating Income" and stops
    at the first one that is absent: the function raises the KeyError of that
    label. *)
Theorem get_quarterly_financials_first_missing (ticker : string) (w : world)
    (l : log) (t : DataFrame) :
  yf_quarterly_financials w l ticker = Ok t ->
  df_empty t = false ->
  let r := fst (get_quarterly_financials ticker w l) in
  (row_absent "Net Income" t -> r = Raise (Exn KeyError "'Net Income'")) /\
  (In "Net Income" (df_index t) -> row_absent "Total Revenue" t ->
   r = Raise (Exn KeyError "'Total Revenue'")) /\
  (In "Net Income" (df_index t) -> In "Total Revenue" (df_index t) ->
   row_absent "Operating Income" t ->
   r = Raise (Exn KeyError "'Operating Income'")).
Proof.
  intros Ht He r. subst r.
  rewrite (get_quarterly_financials_run _ _ _ _ Ht), He.
  assert (Habsent : forall label, row_absent label t ->
             loc_values label (iloc_cols 3 t) = Raise (Exn KeyError (quote label))).
  { intros label Ha. unfold loc_values. simpl.
    apply (positions_nil label (df_index t) 0) in Ha. rewrite Ha. reflexivity. }
  assert (Hpresent : forall label, In label (df_index t) ->
             exists vs, loc_values label (iloc_cols 3 t) = Ok vs).
  { intros label Hin.
    destruct (loc_values label (iloc_cols 3 t)) as [vs | e] eqn:E;
      [eexists; reflexivity | ].
    exfalso. apply (loc_values_raises label (iloc_cols 3 t)); eauto. }
  repeat split.
  - intros Ha. rewrite (Habsent _ Ha). reflexivity.
  - intros H1 Ha. destruct (Hpresent _ H1) as [np ->]. simpl.
    rewrite (Habsent _ Ha). reflexivity.
  - intros H1 H2 Ha. destruct (Hpresent _ H1) as [np ->].
    destruct (Hpresent _ H2) as [sa ->]. simpl.
    rewrite (Habsent _ Ha). reflexivity.
Qed.

Lemma get_quarterly_financials_first_missing_witness :
  let r := fst (get_quarterly_financials "RELIANCE.NS" short_statement_world []) in
  (row_absent "Net Income" short_statement ->
   r = Raise (Exn KeyError "'Net Income'")) /\
  (In "Net Income" (df_index short_statement) ->
   row_absent "Total Revenue" short_statement ->
   r = Raise (Exn KeyError "'Total Revenue'")) /\
  (In "Net Income" (df_index short_statement) ->
   In "Total Revenue" (df_index short_statement) ->
   row_absent "Operating Income" short_statement ->
   r = Raise (Exn KeyError "'Operating Income'")).
Proof.
  apply (get_quarterly_financials_first_missing "RELIANCE.NS"
           short_statement_world [] short_statement); reflexivity.
Defined.

(** ** Metrics Aggregator *)

Lemma bind_inv {A B} (m : M A) (k : A -> M B) (w : world) (l : log)
    (b : B) (l' : log) :
  (m ≫= k) w l = (Ok b, l') ->
  exists a l1, m w l = (Ok a, l1) /\ k a w l1 = (Ok b, l').
Proof.
  unfold mbind, M_bind, bind. intros H.
  destruct (m w l) as [[a | e] l1]; [ | discriminate].
  exists a, l1. split; [reflexivity | exact H].
Qed.

Lemma ask_inv {A} (c : call) (answer : world -> log -> result A) (w : world)
    (l : log) (a : A) (l' : log) :
  ask c answer w l = (Ok a, l') -> answer w l = Ok a /\ l' = (c, None) :: l.
Proof.
  unfold ask. intros H. injection H as H <-. rewrite H. split; reflexivity.
Qed.

Lemma lift_inv {A} (r : result A) (w : world) (l : log) (a : A) (l' : log) :
  lift r w l = (Ok a, l') -> r = Ok a /\ l' = l.
Proof. unfold lift. intros H. injection H as -> ->. split; reflexivity. Qed.

Lemma ret_inv {A} (x : A) (w : world) (l : log) (a : A) (l' : log) :
  ret x w l = (Ok a, l') -> a = x /\ l' = l.
Proof. unfold ret. intros H. injection H as -> ->. split; reflexivity. Qed.

(** Everything that happened in a call of [get_stock_info] that
    returned. *)
Lemma get_stock_info_inv (ticker : string) (w : world) (l : log)
    (d : list (string * pyval)) (l' : log) :
  get_stock_info ticker w l = (Ok d, l') ->
  exists info today price net_profit sales operating_income lq lq',
    yf_info w l ticker = Ok info /\
    yf_history w ((YfInfo ticker, None) :: l) ticker "1d" = Ok today /\
    ((today = [] /\ price = PyStr "N/A") \/
     (today <> [] /\
      exists closes,
        yf_history w ((YfHistory ticker "1d", None) :: (YfInfo ticker, None) :: l)
          ticker "1d" = Ok closes /\
        last_close closes = Ok price)) /\
    get_quarterly_financials ticker w lq =
      (Ok (net_profit, sales, operating_income), lq') /\
    exists v_price v_cap v_yield v_eps v_revenue v_profit v_sales v_income
           v_high v_low,
      format_large_number price = Ok v_price /\
      format_large_number (info_get info "marketCap") = Ok v_cap /\
      (if truthy (info_get info "dividendYield")
       then format_2pct (info_get info "dividendYield")
       else Ok "N/A") = Ok v_yield /\
      format_large_number (info_get info "trailingEps") = Ok v_eps /\
      format_large_number (info_get info "totalRevenue") = Ok v_revenue /\
      rbind (index0 net_profit) format_large_number = Ok v_profit /\
      rbind (index0 sales) format_large_number = Ok v_sales /\
      rbind (index0 operating_income) format_large_number = Ok v_income /\
      format_large_number (info_get info "fiftyTwoWeekHigh") = Ok v_high /\
      format_large_number (info_get info "fiftyTwoWeekLow") = Ok v_low /\
      d = [("Company Name", info_get info "longName");
           ("Ticker", PyStr ticker);
           ("Current Price", PyStr v_price);
           ("Market Cap", PyStr v_cap);
           ("PE Ratio", info_get info "forwardPE");
           ("Dividend Yield", PyStr v_yield);
           ("EPS", PyStr v_eps);
           ("Revenue", PyStr v_revenue);
           ("Net Profit (Last Quarter)", PyStr v_profit);
           ("Sales (Last Quarter)", PyStr v_sales);
           ("Operating Income (Last Quarter)", PyStr v_income);
           ("Beta", info_get info "beta");
           ("52-Week High", PyStr v_high);
           ("52-Week Low", PyStr v_low);
           ("Sector", info_get info "sector");
           ("Recommendation", info_get info "recommendationKey")].
Proof.
  unfold get_stock_info, stock_info_call, stock_history. cbv zeta. intros H.
  apply bind_inv in H. destruct H as (info & l1 & Hinfo & H).
  apply ask_inv in Hinfo. destruct Hinfo as [Hinfo ->].
  apply bind_inv in H. destruct H as (today & l2 & Htoday & H).
  apply ask_inv in Htoday. destruct Htoday as [Htoday ->].
  apply bind_inv in H. destruct H as (price & l3 & Hprice & H).
  apply bind_inv in H. destruct H as ([[np sa] oi] & l4 & Hq & H).
  apply bind_inv in H. destruct H as (v_price & l5 & H1 & H).
  apply lift_inv in H1. destruct H1 as [H1 ->].
  apply bind_inv in H. destruct H as (v_cap & l5 & H2 & H).
  apply lift_inv in H2. destruct H2 as [H2 ->].
  apply bind_inv in H. destruct H as (v_yield & l5 & H3 & H).
  apply lift_inv in H3. destruct H3 as [H3 ->].
  apply bind_inv in H. destruct H as (v_eps & l5 & H4 & H).
  apply lift_inv in H4. destruct H4 as [H4 ->].
  apply bind_inv in H. destruct H as (v_revenue & l5 & H5 & H).
  apply lift_inv in H5. destruct H5 as [H5 ->].
  apply bind_inv in H. destruct H as (v_profit & l5 & H6 & H).
  apply lift_inv in H6. destruct H6 as [H6 ->].
  apply bind_inv in H. destruct H as (v_sales & l5 & H7 & H).
  apply lift_inv in H7. destruct H7 as [H7 ->].
  apply bind_inv in H. destruct H as (v_income & l5 & H8 & H).
  apply lift_inv in H8. destruct H8 as [H8 ->].
  apply bind_inv in H. destruct H as (v_high & l5 & H9 & H).
  apply lift_inv in H9. destruct H9 as [H9 ->].
  apply bind_inv in H. destruct H as (v_low & l5 & H10 & H).
  apply lift_inv in H10. destruct H10 as [H10 ->].
  apply ret_inv in H. destruct H as [-> ->].
  exists info, today, price, np, sa, oi. do 2 eexists.
  split; [exact Hinfo | ]. split; [exact Htoday | ]. split.
  { destruct today as [ | r today]; simpl in Hprice.
    - left. apply ret_inv in Hprice. destruct Hprice as [-> _].
      split; reflexivity.
    - right. split; [discriminate | ].
      apply bind_inv in Hprice. destruct Hprice as (closes & lc & Hc & Hl).
      apply ask_inv in Hc. destruct Hc as [Hc ->].
      apply lift_inv in Hl. destruct Hl as [Hl _].
      exists closes. split; assumption. }
  split; [exact Hq | ].
  exists v_price, v_cap, v_yield, v_eps, v_revenue, v_profit, v_sales, v_income,
    v_high, v_low.
  repeat (split; [assumption | ]). reflexivity.
Qed.

Lemma get_stock_info_inv_fst (ticker : string) (w : world) (l : log)
    (d : list (string * pyval)) :
  fst (get_stock_info ticker w l) = Ok d ->
  exists l', get_stock_info ticker w l = (Ok d, l').
Proof.
  destruct (get_stock_info ticker w l) as [r l']. simpl. intros ->.
  exists l'. reflexivity.
Qed.

Ltac stock_info_inv H :=
  let l' := fresh "l'" in
  apply get_stock_info_inv_fst in H; destruct H as [l' H];
  apply get_stock_info_inv in H;
  destruct H as (info' & today & price & net_profit & sales & operating_income
                 & lq & lq' & Hinfo' & Htoday & Hprice & Hquarterly
                 & v_price & v_cap & v_yield & v_eps & v_revenue & v_profit
                 & v_sales & v_income & v_high & v_low
                 & Hv_price & Hv_cap & Hv_yield & Hv_eps & Hv_revenue
                 & Hv_profit & Hv_sales & Hv_income & Hv_high & Hv_low & Hd).

(** X6.  In the mapping that [get_stock_info] returns, "Ticker" is the
    ticker it was called with; "Company Name", "PE Ratio", "Beta", "Sector" and
    "Recommendation" hold the provider's values for longName, forwardPE, beta,
    sector and recommendationKey as they are; "Market Cap", "EPS", "Revenue",
    "52-Week High" and "52-Week Low" hold what the Number Formatter makes of
    marketCap, trailingEps, totalRevenue, fiftyTwoWeekHigh and
    fiftyTwoWeekLow. *)
Theorem get_stock_info_fields (ticker : string) (w : world) (l : log)
    (info : gmap string pyval) (d : list (string * pyval)) :
  yf_info w l ticker = Ok info ->
  fst (get_stock_info ticker w l) = Ok d ->
  assoc "Ticker" d = Some (PyStr ticker) /\
  (forall field key, In (field, key) plain_fields ->
     assoc field d = Some (info_get info key)) /\
  (forall field key, In (field, key) money_fields ->
     exists s, format_large_number (info_get info key) = Ok s /\
               assoc field d = Some (PyStr s)).
Proof.
  intros Hinfo H. stock_info_inv H.
  assert (info' = info) by congruence. subst info' d.
  split; [reflexivity | ]. split.
  - intros field key Hin. simpl in Hin.
    repeat (destruct Hin as [Hin | Hin];
            [injection Hin as <- <-; reflexivity | ]).
    destruct Hin.
  - intros field key Hin. simpl in Hin.
    repeat (destruct Hin as [Hin | Hin];
            [injection Hin as <- <-; eexists; split; [eassumption | reflexivity] | ]).
    destruct Hin.
Qed.

Lemma get_stock_info_fields_witness :
  exists d,
    assoc "Ticker" d = Some (PyStr "RELIANCE.NS") /\
    (forall field key, In (field, key) plain_fields ->
       assoc field d = Some (info_get sample_info key)) /\
    (forall field key, In (field, key) money_fields ->
       exists s, format_large_number (info_get sample_info key) = Ok s /\
                 assoc field d = Some (PyStr s)).
Proof.
  eexists.
  apply (get_stock_info_fields "RELIANCE.NS" sample_world [] sample_info).
  - reflexivity.
  - vm_compute. reflexivity.
Defined.

(** X7.  A field that the provider's profile leaves out is shown as "N/A":
    this holds for the ten fields above whenever [get_stock_info] returns. *)
Theorem get_stock_info_missing_field (ticker : string) (w : world) (l : log)
    (info : gmap string pyval) (d : list (string * pyval))
    (field key : string) :
  yf_info w l ticker = Ok info ->
  fst (get_stock_info ticker w l) = Ok d ->
  In (field, key) (plain_fields ++ money_fields) ->
  info !! key = None ->
  assoc field d = Some (PyStr "N/A").
Proof.
  intros Hinfo H Hin Hkey. stock_info_inv H.
  assert (info' = info) by congruence. subst info' d.
  assert (Hna : info_get info key = PyStr "N/A")
    by (unfold info_get; rewrite Hkey; reflexivity).
  simpl in Hin.
  repeat (destruct Hin as [Hin | Hin];
          [injection Hin as <- <-; cbn [assoc String.eqb Ascii.eqb Bool.eqb];
           first [ rewrite Hna; reflexivity
                 | rewrite Hna in *; cbn in *; congruence ] | ]).
  destruct Hin.
Qed.

Lemma get_stock_info_missing_field_witness :
  exists d, fst (get_stock_info "RELIANCE.NS" bare_world []) = Ok d /\
            assoc "Market Cap" d = Some (PyStr "N/A").
Proof.
  eexists. split.
  - vm_compute. reflexivity.
  - apply (get_stock_info_missing_field "RELIANCE.NS" bare_world [] bare_info
             _ "Market Cap" "marketCap").
    + reflexivity.
    + vm_compute. reflexivity.
    + simpl. tauto.
    + vm_compute. reflexivity.
Defined.

Lemma format_2pct_numeric (v : pyval) (s : string) :
  format_2pct v = Ok s -> numeric v /\ ends_with "%" s.
Proof.
  assert (Hpct : forall f, ends_with "%" (float_2pct f))
    by (intros f; exists (float_2f (SFmul prec emax f (SF_of_Z 100))); reflexivity).
  destruct v as [ | b | z | f | s0 | l]; simpl; try discriminate.
  - destruct (int_to_float (Z.b2z b)); [ | discriminate].
    intros H. injection H as <-. split; [constructor | apply Hpct].
  - destruct (int_to_float z); [ | discriminate].
    intros H. injection H as <-. split; [constructor | apply Hpct].
  - intros H. injection H as <-. split; [constructor | apply Hpct].
Qed.

(** X8.  [get_stock_info] returns only when the provider's profile has a
    "dividendYield" entry, and then "Dividend Yield" is "N/A" for a value
    that counts as false (None, zero), and for any other value, which is a
    number, its percent format, ending in "%". *)
Theorem get_stock_info_dividend_yield (ticker : string) (w : world) (l : log)
    (info : gmap string pyval) (d : list (string * pyval)) :
  yf_info w l ticker = Ok info ->
  fst (get_stock_info ticker w l) = Ok d ->
  exists y, info !! "dividendYield" = Some y /\
    ((truthy y = false /\ assoc "Dividend Yield" d = Some (PyStr "N/A")) \/
     (truthy y = true /\ numeric y /\
      exists s, format_2pct y = Ok s /\ ends_with "%" s /\
                assoc "Dividend Yield" d = Some (PyStr s))).
Proof.
  intros Hinfo H. stock_info_inv H.
  assert (info' = info) by congruence. subst info' d.
  destruct (info !! "dividendYield") as [y | ] eqn:Hy.
  - exists y. split; [reflexivity | ].
    unfold info_get in Hv_yield. rewrite Hy in Hv_yield. simpl in Hv_yield.
    destruct (truthy y).
    + right. split; [reflexivity | ].
      destruct (format_2pct_numeric y v_yield Hv_yield) as [Hn Hp].
      split; [exact Hn | ]. exists v_yield.
      split; [exact Hv_yield | split; [exact Hp | reflexivity]].
    + left. injection Hv_yield as <-. split; reflexivity.
  - rewrite (missing_yield_raises info Hy) in Hv_yield. discriminate.
Qed.

Lemma get_stock_info_dividend_yield_witness :
  exists d y, sample_info !! "dividendYield" = Some y /\
    ((truthy y = false /\ assoc "Dividend Yield" d = Some (PyStr "N/A")) \/
     (truthy y = true /\ numeric y /\
      exists s, format_2pct y = Ok s /\ ends_with "%" s /\
                assoc "Dividend Yield" d = Some (PyStr s))).
Proof.
  eexists.
  apply (get_stock_info_dividend_yield "RELIANCE.NS" sample_world [] sample_info).
  - reflexivity.
  - vm_compute. reflexivity.
Defined.

(** X9.  "Current Price" is what the Number Formatter makes of the close of
    the last row of the one-day history, and "N/A" when that history is
    empty (no trading that day). *)
Theorem get_stock_info_current_price (ticker : string) (w : world) (l : log)
    (h : list (hist_row spec_float)) (d : list (string * pyval)) :
  (forall l0, yf_history w l0 ticker "1d" = Ok h) ->
  fst (get_stock_info ticker w l) = Ok d ->
  match last h with
  | None => assoc "Current Price" d = Some (PyStr "N/A")
  | Some r =>
      exists s, format_large_number (PyFloat (h_close r)) = Ok s /\
                assoc "Current Price" d = Some (PyStr s)
  end.
Proof.
  intros Hh H. stock_info_inv H. subst d.
  rewrite Hh in Htoday. injection Htoday as <-.
  destruct Hprice as [[-> ->] | [Hne [closes [Hc Hl]]]].
  - simpl. injection Hv_price as <-. reflexivity.
  - rewrite Hh in Hc. injection Hc as <-.
    unfold last_close in Hl. rewrite last_fmap in Hl || rewrite fmap_last in Hl.
    destruct (last h) as [r | ]; simpl in Hl; [ | discriminate].
    injection Hl as <-. exists v_price. split; [exact Hv_price | reflexivity].
Qed.

Lemma get_stock_info_current_price_witness :
  exists d r, last sample_history = Some r /\
    exists s, format_large_number (PyFloat (h_close r)) = Ok s /\
              assoc "Current Price" d = Some (PyStr s).
Proof.
  eexists. eexists. split; [reflexivity | ].
  apply (get_stock_info_current_price "RELIANCE.NS" sample_world []
           sample_history).
  - intros l0. reflexivity.
  - vm_compute. reflexivity.
Defined.

(** X10.  When the provider's quarterly statement table is empty, the
    three last-quarter fields of the mapping are "N/A": the Metrics Aggregator
    itself does cope with the empty table. *)
Theorem get_stock_info_empty_statement (ticker : string) (w : world) (l : log)
    (d : list (string * pyval)) (field row : string) :
  (forall l0, exists t,
      yf_quarterly_financials w l0 ticker = Ok t /\ df_empty t = true) ->
  fst (get_stock_info ticker w l) = Ok d ->
  In (field, row) quarter_fields ->
  assoc field d = Some (PyStr "N/A").
Proof.
  intros Hw H Hin. stock_info_inv H. subst d.
  pose proof (get_quarterly_financials_empty ticker w Hw _ _ _ Hquarterly) as E.
  injection E as -> -> ->.
  simpl in Hv_profit, Hv_sales, Hv_income.
  injection Hv_profit as <-. injection Hv_sales as <-. injection Hv_income as <-.
  simpl in Hin.
  repeat (destruct Hin as [Hin | Hin]; [injection Hin as <- <-; reflexivity | ]).
  destruct Hin.
Qed.

Lemma get_stock_info_empty_statement_witness :
  exists d, fst (get_stock_info "RELIANCE.NS" no_statement_world []) = Ok d /\
            assoc "Sales (Last Quarter)" d = Some (PyStr "N/A").
Proof.
  eexists. split.
  - vm_compute. reflexivity.
  - apply (get_stock_info_empty_statement "RELIANCE.NS" no_statement_world []
             _ "Sales (Last Quarter)" "Total Revenue").
    + intros l0. exists empty_statement. split; reflexivity.
    + vm_compute. reflexivity.
    + simpl. tauto.
Defined.

Lemma get_quarterly_financials_table (ticker : string) (w : world)
    (t : DataFrame) (l l' : log) (r : list pyval * list pyval * list pyval) :
  (forall l0, yf_quarterly_financials w l0 ticker = Ok t) ->
  df_empty t = false ->
  get_quarterly_financials ticker w l = (Ok r, l') ->
  loc_values "Net Income" (iloc_cols 3 t) = Ok (fst (fst r)) /\
  loc_values "Total Revenue" (iloc_cols 3 t) = Ok (snd (fst r)) /\
  loc_values "Operating Income" (iloc_cols 3 t) = Ok (snd r).
Proof.
  intros Hw He H.
  pose proof (get_quarterly_financials_run ticker w l t (Hw l)) as Hrun.
  rewrite H, He in Hrun. simpl in Hrun.
  destruct (loc_values "Net Income" (iloc_cols 3 t)); [ | discriminate].
  destruct (loc_values "Total Revenue" (iloc_cols 3 t)); [ | discriminate].
  destruct (loc_values "Operating Income" (iloc_cols 3 t)); [ | discriminate].
  simpl in Hrun. injection Hrun as ->. repeat split.
Qed.

(** X11.  With a statement table that is not empty, each last-quarter field
    is what the Number Formatter makes of the first column (the most recent
    quarter) of its row, for a row label that occurs once. *)
Theorem get_stock_info_last_quarter (ticker : string) (w : world) (l : log)
    (t : DataFrame) (d : list (string * pyval)) (field row : string) (i : nat) :
  (forall l0, yf_quarterly_financials w l0 ticker = Ok t) ->
  df_empty t = false ->
  fst (get_stock_info ticker w l) = Ok d ->
  In (field, row) quarter_fields ->
  positions row (df_index t) 0 = [i] ->
  exists s, format_large_number (df_cell t i 0) = Ok s /\
            assoc field d = Some (PyStr s).
Proof.
  intros Hw He H Hin Hpos. stock_info_inv H. subst d.
  destruct (get_quarterly_financials_table ticker w t _ _ _ Hw He Hquarterly)
    as [E1 [E2 E3]]. simpl in E1, E2, E3.
  assert (Hcell : forall vs v_field,
             loc_values row (iloc_cols 3 t) = Ok vs ->
             rbind (index0 vs) format_large_number = Ok v_field ->
             format_large_number (df_cell t i 0) = Ok v_field).
  { intros vs v_field Hvs Hf.
    rewrite (loc_values_iloc 3 row t i Hpos) in Hvs. injection Hvs as <-.
    unfold row_values in Hf. unfold df_empty in He.
    destruct (df_index t); [discriminate | ].
    destruct (df_columns t); [discriminate | ]. exact Hf. }
  simpl in Hin.
  destruct Hin as [Hin | [Hin | [Hin | []]]]; injection Hin as <- <-.
  - exists v_profit. split; [apply (Hcell _ _ E1 Hv_profit) | reflexivity].
  - exists v_sales. split; [apply (Hcell _ _ E2 Hv_sales) | reflexivity].
  - exists v_income. split; [apply (Hcell _ _ E3 Hv_income) | reflexivity].
Qed.

Lemma get_stock_info_last_quarter_witness :
  exists d s, format_large_number (df_cell sample_statement 2 0) = Ok s /\
              assoc "Net Profit (Last Quarter)" d = Some (PyStr s).
Proof.
  eexists.
  apply (get_stock_info_last_quarter "RELIANCE.NS" sample_world [] sample_statement
           _ "Net Profit (Last Quarter)" "Net Income" 2%nat).
  - intros l0. reflexivity.
  - reflexivity.
  - vm_compute. reflexivity.
  - simpl. tauto.
  - reflexivity.
Defined.

(** X12.  The current price takes two calls of the one-day history, one to
    see that it is not empty and one to read the close.  When the first
    answer has rows and the second has none, [get_stock_info] raises an
    IndexError. *)
Theorem get_stock_info_history_twice (ticker : string) (w : world) (l : log)
    (info : gmap string pyval) (r : hist_row spec_float)
    (today : list (hist_row spec_float)) :
  yf_info w l ticker = Ok info ->
  yf_history w ((YfInfo ticker, None) :: l) ticker "1d" = Ok (r :: today) ->
  yf_history w ((YfHistory ticker "1d", None) :: (YfInfo ticker, None) :: l)
    ticker "1d" = Ok [] ->
  fst (get_stock_info ticker w l) =
    Raise (Exn IndexError "single positional indexer is out-of-bounds").
Proof.
  intros Hinfo H1 H2.
  unfold get_stock_info, stock_info_call, stock_history, mbind, M_bind, bind, ask.
  rewrite Hinfo. cbn [outcome]. rewrite H1. cbn [outcome negb].
  rewrite H2. reflexivity.
Qed.

Lemma get_stock_info_history_twice_witness :
  fst (get_stock_info "RELIANCE.NS" flickering_world []) =
    Raise (Exn IndexError "single positional indexer is out-of-bounds").
Proof.
  eapply (get_stock_info_history_twice "RELIANCE.NS" flickering_world []);
    reflexivity.
Defined.

(** ** Request Handler *)

Lemma get_quarterly_financials_missing (ticker : string) (w : world) :
  (forall l, exists t,
      yf_quarterly_financials w l ticker = Ok t /\ df_empty t = false /\
      (row_absent "Net Income" t \/ row_absent "Total Revenue" t \/
       row_absent "Operating Income" t)) ->
  post w (get_quarterly_financials ticker) (fun _ => False).
Proof.
  intros Hw l r l' E. destruct (Hw l) as [t [Ht [He Ha]]].
  pose proof (get_quarterly_financials_run ticker w l t Ht) as Hrun.
  rewrite E, He in Hrun. simpl in Hrun.
  assert (Habsent : forall label, row_absent label t ->
             exists e, loc_values label (iloc_cols 3 t) = Raise e)
    by (intros label H; apply (loc_values_raises label (iloc_cols 3 t)); exact H).
  destruct (loc_values "Net Income" (iloc_cols 3 t)) as [np | e1] eqn:E1;
    [ | discriminate].
  destruct (loc_values "Total Revenue" (iloc_cols 3 t)) as [sa | e2] eqn:E2;
    [ | discriminate].
  destruct (loc_values "Operating Income" (iloc_cols 3 t)) as [oi | e3] eqn:E3;
    [ | discriminate].
  destruct Ha as [Ha | [Ha | Ha]]; apply Habsent in Ha; destruct Ha as [e Ha];
    congruence.
Qed.

(** X13.  When the provider's statement table is not empty and lacks one of
    the rows "Net Income", "Total Revenue", "Operating Income", the request
    ends in the error string and no image. *)
Theorem main_missing_row_is_error (fr : spec_float -> string)
    (sr : string -> string) (fm : list spec_float -> spec_float)
    (s : string) (w : world) (l : log) :
  (forall l', exists t,
      yf_quarterly_financials w l' (s +:+ ".NS") = Ok t /\ df_empty t = false /\
      (row_absent "Net Income" t \/ row_absent "Total Revenue" t \/
       row_absent "Operating Income" t)) ->
  exists e,
    fst (main fr sr fm s w l) =
      Ok ("Error fetching data for " +:+ (s +:+ ".NS") +:+ ": " +:+ exn_msg e, None).
Proof.
  intros Hw.
  assert (Hinfo : post w (get_stock_info (s +:+ ".NS")) (fun _ => False)).
  { unfold get_stock_info. cbv zeta. do 3 post_step.
    apply (post_bind _ _ _ (fun _ => False)); [ | intros ? []].
    apply get_quarterly_financials_missing. exact Hw. }
  assert (Hmain : post w (main_try fr sr fm (s +:+ ".NS")) (fun _ => False)).
  { unfold main_try.
    apply (post_bind _ _ _ (fun _ => False)); [exact Hinfo | intros ? []]. }
  destruct (post_raises w _ Hmain l) as [e He].
  exists e. apply main_of_raise. exact He.
Qed.

Lemma main_missing_row_is_error_witness :
  exists e,
    fst (sample_main "RELIANCE" short_statement_world []) =
      Ok ("Error fetching data for " +:+ ("RELIANCE" +:+ ".NS") +:+ ": " +:+ exn_msg e,
          None).
Proof.
  apply (main_missing_row_is_error float_2f quote naive_float_mean
           "RELIANCE" short_statement_world []).
  intros l'. exists short_statement. split; [reflexivity | ].
  split; [reflexivity | ]. right; right.
  unfold row_absent. simpl. intros [H | [H | []]]; discriminate.
Defined.

Example missing_row_message :
  fst (sample_main "RELIANCE" short_statement_world []) =
  Ok ("Error fetching data for RELIANCE.NS: 'Operating Income'", None).
Proof. vm_compute. reflexivity. Qed.

(** ** Chart Renderer *)

Lemma format_2f_numeric (v : pyval) (s : string) :
  format_2f v = Ok s -> numeric v.
Proof. destruct v; simpl; try discriminate; intros _; constructor. Qed.

Lemma annotate_bars_numbers (w : world) (axis : Z) (values : list pyval) :
  forall i, post w (annotate_bars axis i values) (fun _ => Forall numeric values).
Proof.
  induction values as [ | v values IH]; intros i; cbn [annotate_bars].
  - apply post_ret. constructor.
  - apply (post_bind _ _ _ (fun s => format_2f v = Ok s));
      [apply post_lift; intros s E; exact E | intros s Hs].
    apply (post_bind _ _ _ (fun _ => True)); [apply post_any | intros _ _].
    intros l a l' E. constructor.
    + apply (format_2f_numeric v s Hs).
    + apply (IH (i + 1) l a l' E).
Qed.

(** X14.  The chart is drawn only from numbers: when [plot_visualizations]
    returns an image, every net-profit value and every sales value it was
    given is an int, a bool or a float. *)
Theorem plot_visualizations_needs_numbers (ticker : string)
    (net_profit sales : list pyval)
    (quarterly_high_low : list (quarter_row spec_float))
    (w : world) (l : log) (img : image) :
  fst (plot_visualizations ticker net_profit sales quarterly_high_low w l) = Ok img ->
  Forall numeric net_profit /\ Forall numeric sales.
Proof.
  intros H.
  destruct (plot_visualizations ticker net_profit sales quarterly_high_low w l)
    as [r l'] eqn:E. simpl in H. subst r. revert E.
  match goal with |- ?m w l = _ -> ?G => enough (Hp : post w m (fun _ => G)) end.
  { intros E. apply (Hp l img l' E). }
  unfold plot_visualizations. cbv zeta.
  do 4 post_step.
  apply (post_bind _ _ _ (fun _ => Forall numeric net_profit));
    [apply annotate_bars_numbers | intros _ Hnp].
  do 3 post_step.
  apply (post_bind _ _ _ (fun _ => Forall numeric sales));
    [apply annotate_bars_numbers | intros _ Hsa].
  intros ? ? ? _. split; assumption.
Qed.

Lemma plot_visualizations_needs_numbers_witness :
  Forall numeric [PyInt 1; PyInt 2; PyInt 3] /\
  Forall numeric [PyFloat (SF_of_Z 4); PyBool true].
Proof.
  apply (plot_visualizations_needs_numbers "RELIANCE.NS"
           [PyInt 1; PyInt 2; PyInt 3] [PyFloat (SF_of_Z 4); PyBool true] []
           sample_world [] (PngImage "PNG")).
  vm_compute. reflexivity.
Defined.

(** *** No call after a failure *)

Lemma fail_fast_ret {A} (a : A) : fail_fast (ret a).
Proof. intros w l. exists []. repeat split; constructor. Qed.

Lemma fail_fast_lift {A} (r : result A) : fail_fast (lift r).
Proof. intros w l. exists []. repeat split; constructor. Qed.

Lemma fail_fast_ask {A} (c : call) (answer : world -> log -> result A) :
  fail_fast (ask c answer).
Proof.
  intros w l. exists [(c, outcome (answer w l))]. split; [reflexivity | ].
  split; [constructor | ].
  unfold ask. simpl. destruct (answer w l); [ | discriminate].
  intros _. constructor; [reflexivity | constructor].
Qed.

Lemma fail_fast_bind {A B} (m : M A) (k : A -> M B) :
  fail_fast m -> (forall a, fail_fast (k a)) -> fail_fast (m ≫= k).
Proof.
  intros Hm Hk w l. unfold mbind, M_bind, bind.
  destruct (Hm w l) as [ext1 [E1 [L1 R1]]].
  destruct (m w l) as [[a | e0] l1]; simpl in E1, R1; subst l1.
  - specialize (R1 eq_refl).
    destruct (Hk a w (ext1 ++ l)) as [ext2 [E2 [L2 R2]]].
    exists (ext2 ++ ext1). split; [rewrite E2; apply app_assoc | ]. split.
    + destruct ext2 as [ | ev ext2]; simpl.
      * destruct ext1 as [ | ev ext1]; [exact I | ].
        simpl. inversion R1; assumption.
      * simpl in L2. apply Forall_app. split; assumption.
    + intros Hok. apply Forall_app. split; [apply R2; exact Hok | exact R1].
  - exists ext1. split; [reflexivity | ]. split; [exact L1 | discriminate].
Qed.

Lemma fail_fast_annotate_bars (axis : Z) (values : list pyval) :
  forall i, fail_fast (annotate_bars axis i values).
Proof.
  induction values as [ | v values IH]; intros i; cbn [annotate_bars].
  - apply fail_fast_ret.
  - apply fail_fast_bind; [apply fail_fast_lift | intros s].
    apply fail_fast_bind; [apply fail_fast_ask | intros _].
    apply IH.
Qed.

Ltac fail_fast_step :=
  lazymatch goal with
  | |- fail_fast (ret _) => apply fail_fast_ret
  | |- fail_fast (lift _) => apply fail_fast_lift
  | |- fail_fast (annotate_bars _ _ _) => apply fail_fast_annotate_bars
  | |- fail_fast (ask _ _) => apply fail_fast_ask
  | |- fail_fast (_ ≫= _) => apply fail_fast_bind; [ | intros ?]
  | |- fail_fast (match ?x with (_, _) => _ end) => destruct x
  | |- fail_fast (if ?b then _ else _) => destruct b
  end.

Lemma fail_fast_main_try (fr : spec_float -> string) (sr : string -> string)
    (fm : list spec_float -> spec_float) (ticker : string) :
  fail_fast (main_try fr sr fm ticker).
Proof.
  unfold main_try, get_stock_info, get_quarterly_financials,
    calculate_quarterly_averages, plot_visualizations, stock_info_call,
    stock_history, stock_quarterly_financials, mpl_call, savefig, image_open.
  cbv zeta. repeat fail_fast_step.
Qed.

(** X15.  A request makes no call after a call that raised: of the calls
    to the provider and to the plotting and image libraries that [main] adds
    to the log, only the most recent one can have raised (there is no retry
    and no fallback call), and when [main] returns an image every call
    returned. *)
Theorem main_stops_at_first_failure (fr : spec_float -> string)
    (sr : string -> string) (fm : list spec_float -> spec_float)
    (s : string) (w : world) (l : log) :
  exists ext,
    snd (main fr sr fm s w l) = ext ++ l /\
    only_last_raised ext /\
    (forall txt img, fst (main fr sr fm s w l) = Ok (txt, Some img) ->
                     Forall returned ext).
Proof.
  destruct (fail_fast_main_try fr sr fm (s +:+ ".NS") w l) as [ext [E [L R]]].
  exists ext. unfold main, try_except.
  destruct (main_try fr sr fm (s +:+ ".NS") w l) as [[r | e] l'];
    simpl in *; (split; [exact E | split; [exact L | ]]).
  - intros txt img _. apply R. reflexivity.
  - intros txt img H. discriminate.
Qed.

(** X16.  The text block of a request that succeeded is made of 16 entries
    "**key**: value", one for each key of the stock information in its fixed
    order, with an empty line between two entries; the value of "Ticker" is
    the symbol followed by ".NS". *)
Theorem main_text_block (fr : spec_float -> string) (sr : string -> string)
    (fm : list spec_float -> spec_float) (s : string) (w : world) (l : log)
    (md : string) (img : image) :
  fst (main fr sr fm s w l) = Ok (md, Some img) ->
  exists d,
    fst (get_stock_info (s +:+ ".NS") w l) = Ok d /\
    map fst d = stock_info_keys /\
    assoc "Ticker" d = Some (PyStr (s +:+ ".NS")) /\
    md = join (nl +:+ nl)
           (map (fun kv : string * pyval =>
                   "**" +:+ fst kv +:+ "**: " +:+ py_str fr sr (snd kv)) d).
Proof.
  unfold main, try_except. intros H.
  destruct (main_try fr sr fm (s +:+ ".NS") w l) as [[[md' img'] | e] l'] eqn:E;
    simpl in H; [ | discriminate].
  injection H as <- <-.
  unfold main_try in E.
  apply bind_inv in E. destruct E as (d & l1 & Hd & E).
  apply bind_inv in E. destruct E as ([[np sa] oi] & l2 & _ & E).
  apply bind_inv in E. destruct E as (qhl & l3 & _ & E).
  apply bind_inv in E. destruct E as (image & l4 & _ & E).
  apply ret_inv in E. destruct E as [E _]. injection E as -> _.
  exists d. split; [rewrite Hd; reflexivity | ].
  split; [apply (get_stock_info_post _ w l d l1 Hd) | ].
  split; [ | reflexivity].
  apply get_stock_info_inv in Hd.
  destruct Hd as (? & ? & ? & ? & ? & ? & ? & ? & _ & _ & _ & _
                  & ? & ? & ? & ? & ? & ? & ? & ? & ? & ?
                  & _ & _ & _ & _ & _ & _ & _ & _ & _ & _ & ->).
  reflexivity.
Qed.

Lemma main_text_block_witness :
  exists md d,
    fst (get_stock_info ("RELIANCE" +:+ ".NS") sample_world []) = Ok d /\
    map fst d = stock_info_keys /\
    assoc "Ticker" d = Some (PyStr ("RELIANCE" +:+ ".NS")) /\
    md = join (nl +:+ nl)
           (map (fun kv : string * pyval =>
                   "**" +:+ fst kv +:+ "**: " +:+ py_str float_2f quote (snd kv)) d).
Proof.
  eexists.
  apply (main_text_block float_2f quote naive_float_mean "RELIANCE" sample_world []
           _ (PngImage "PNG")).
  vm_compute. reflexivity.
Defined.

(** ** Symbol Catalog Loader *)

(** X17.  Only a missing file gives the empty catalog.  Any other
    exception of reading the file goes on to the caller, and so does the
    KeyError of a file that has no "SYMBOL" column. *)
Theorem load_stocks_other_failures (w : world) (l : log) :
  (forall e, pd_read_csv w l "nse_stocks.csv" = Raise e ->
             exn_cls e <> FileNotFoundError ->
             fst (load_stocks w l) = Raise e) /\
  (forall df, pd_read_csv w l "nse_stocks.csv" = Ok df ->
              ~ In "SYMBOL" (df_columns df) ->
              fst (load_stocks w l) = Raise (Exn KeyError "'SYMBOL'")).
Proof.
  split.
  - intros e Hr Hc.
    unfold load_stocks, read_csv, mbind, M_bind, bind, ask. rewrite Hr.
    unfold is_FileNotFoundError. destruct (exn_cls e); try reflexivity.
    destruct Hc. reflexivity.
  - intros df Hr Hno.
    unfold load_stocks, read_csv, mbind, M_bind, bind, ask, lift. rewrite Hr.
    unfold column_tolist.
    apply (positions_nil "SYMBOL" (df_columns df) 0) in Hno. rewrite Hno.
    reflexivity.
Qed.

Lemma positions_nth (label : string) (labels : list string) (i j : nat) :
  In j (positions label labels i) ->
  nth_error labels (j - i) = Some label.
Proof.
  revert i. induction labels as [ | x labels IH]; intros i; simpl; [tauto | ].
  destruct (String.eqb_spec x label) as [-> | Hne].
  - intros [<- | H].
    + rewrite Nat.sub_diag. reflexivity.
    + pose proof (positions_bound _ _ _ _ H) as Hb.
      apply IH in H. replace (j - i)%nat with (S (j - S i)) by lia. exact H.
  - intros H. pose proof (positions_bound _ _ _ _ H) as Hb.
    apply IH in H. replace (j - i)%nat with (S (j - S i)) by lia. exact H.
Qed.

(** X18.  From a catalog file with distinct column names, one of them
    "SYMBOL", the loader returns the cells of that column, one for each row
    of the file, in the order of the rows. *)
Theorem load_stocks_symbols (w : world) (l : log) (df : DataFrame) :
  pd_read_csv w l "nse_stocks.csv" = Ok df ->
  NoDup (df_columns df) ->
  In "SYMBOL" (df_columns df) ->
  exists j,
    nth_error (df_columns df) j = Some "SYMBOL" /\
    fst (load_stocks w l) =
      Ok (map (fun i => df_cell df i j) (seq 0 (length (df_index df)))).
Proof.
  intros Hr Hnd Hin. apply NoDup_ListNoDup in Hnd.
  destruct (positions_once "SYMBOL" (df_columns df) 0 Hnd Hin) as [j Hj].
  exists j. split.
  - rewrite <- (Nat.sub_0_r j). apply positions_nth. rewrite Hj. left. reflexivity.
  - unfold load_stocks, read_csv, mbind, M_bind, bind, ask, lift. rewrite Hr.
    unfold column_tolist. rewrite Hj. reflexivity.
Qed.

Lemma load_stocks_symbols_witness :
  exists j,
    nth_error (df_columns sample_catalog) j = Some "SYMBOL" /\
    fst (load_stocks (catalog_world (Ok sample_catalog)) []) =
      Ok (map (fun i => df_cell sample_catalog i j)
            (seq 0 (length (df_index sample_catalog)))).
Proof.
  apply (load_stocks_symbols (catalog_world (Ok sample_catalog)) [] sample_catalog).
  - reflexivity.
  - apply (bool_decide_unpack _). vm_compute. exact I.
  - simpl. tauto.
Defined.

Example load_stocks_sample :
  fst (load_stocks (catalog_world (Ok sample_catalog)) []) =
    Ok [PyStr "RELIANCE"; PyStr "TCS"] /\
  fst (load_stocks (catalog_world (Ok unlabelled_catalog)) []) =
    Raise (Exn KeyError "'SYMBOL'").
Proof. split; vm_compute; reflexivity. Qed.

(** ** Quarterly Averager *)

Section GroupByPartition.
Context {R : Type} (key : R -> Z).

Lemma group_add_perm (k : Z) (r : R) (gs : list (Z * list R)) :
  concat (map snd (group_add k r gs)) ≡ₚ r :: concat (map snd gs).
Proof.
  induction gs as [ | [k0 rs] gs IH]; simpl.
  - reflexivity.
  - destruct (k <? k0); simpl; [reflexivity | ].
    destruct (k =? k0); simpl.
    + rewrite <- app_assoc. simpl.
      rewrite <- Permutation_middle. reflexivity.
    + rewrite IH. rewrite <- Permutation_middle. reflexivity.
Qed.

Lemma groupby_fold_perm (rows : list R) (gs : list (Z * list R)) :
  concat (map snd (fold_left (fun gs r => group_add (key r) r gs) rows gs))
  ≡ₚ concat (map snd gs) ++ rows.
Proof.
  revert gs. induction rows as [ | r rows IH]; intros gs; simpl.
  - rewrite app_nil_r. reflexivity.
  - rewrite IH, group_add_perm. rewrite <- Permutation_middle. reflexivity.
Qed.

Lemma groupby_perm (rows : list R) :
  concat (map snd (groupby key rows)) ≡ₚ rows.
Proof. apply (groupby_fold_perm rows []). Qed.
End GroupByPartition.

Lemma concat_length_nonempty {R} (gs : list (list R)) :
  (forall g, In g gs -> g <> []) -> (length gs <= length (concat gs))%nat.
Proof.
  induction gs as [ | g gs IH]; simpl; intros H; [lia | ].
  rewrite length_app.
  assert (g <> []) by (apply H; left; reflexivity).
  assert (length gs <= length (concat gs))%nat
    by (apply IH; intros g' Hg'; apply H; right; exact Hg').
  destruct g; [congruence | simpl; lia].
Qed.

(** X19.  The quarters of the output split the history: the rows of the
    quarters of the output, taken together, are the rows of the history, each
    one once.  So there are at most as many output rows as days, and none
    exactly when the history is empty. *)
Theorem quarterly_averages_partition {A} (mean : list A -> A)
    (hist : list (hist_row A)) :
  let out := groupby_quarter_mean mean hist in
  concat (map (fun row => in_quarter (q_period row) hist) out) ≡ₚ hist /\
  (length out <= length hist)%nat /\
  (out = [] <-> hist = []).
Proof.
  intros out. subst out. unfold groupby_quarter_mean.
  destruct (groupby_grouped (fun r : hist_row A => to_period_Q (h_date r)) hist)
    as [_ [Hrows _]].
  cbv beta in Hrows.
  pose proof (groupby_perm (fun r : hist_row A => to_period_Q (h_date r)) hist)
    as Hperm.
  set (gs := groupby (fun r : hist_row A => to_period_Q (h_date r)) hist) in *.
  assert (Hgroups :
            map (fun row : quarter_row A => in_quarter (q_period row) hist)
              (map (fun g : Z * list (hist_row A) =>
                      Build_quarter_row (fst g) (mean (map h_high (snd g)))
                        (mean (map h_low (snd g)))) gs)
            = map snd gs).
  { rewrite List.map_map. apply List.map_ext_in. intros [k rs] Hin. simpl.
    destruct (Hrows _ _ Hin) as [-> _]. reflexivity. }
  assert (Hlen : (length gs <= length hist)%nat).
  { rewrite <- (Permutation_length Hperm).
    rewrite <- (length_map snd gs) at 1.
    apply concat_length_nonempty. intros g Hg.
    apply in_map_iff in Hg. destruct Hg as [[k rs] [<- Hin]].
    apply (Hrows _ _ Hin). }
  split; [rewrite Hgroups; exact Hperm | ].
  split; [rewrite length_map; exact Hlen | ]. split.
  - intros E. apply (f_equal (@length _)) in E. rewrite length_map in E.
    simpl in E. destruct gs; [ | discriminate].
    simpl in Hperm. apply Permutation_nil_l in Hperm || symmetry in Hperm.
    first [exact Hperm | symmetry; exact Hperm
          | apply Permutation_nil in Hperm; exact Hperm].
  - intros E. destruct gs as [ | g gs]; [reflexivity | ].
    exfalso. rewrite E in Hlen. simpl in Hlen. lia.
Qed.

(** X22.  The label of a quarter on the chart names the year and the
    quarter of the year of the dates averaged in it: for a date with a month
    from 1 to 12, the label of its quarter is the year, "-Q" and the number
    (1 to 4) of the calendar quarter. *)
Theorem quarter_label (d : date) :
  1 <= month d <= 12 ->
  strftime_Yq (to_period_Q d) =
    signed_dec (year d) +:+ "-Q" +:+ dec (calendar_quarter d) /\
  1 <= calendar_quarter d <= 4.
Proof.
  intros Hm. unfold strftime_Yq, to_period_Q, calendar_quarter.
  pose proof (Z.div_mod (month d - 1) 3 ltac:(lia)) as E.
  pose proof (Z.mod_pos_bound (month d - 1) 3 ltac:(lia)) as B.
  set (q := (month d - 1) / 3) in *.
  assert (Hq : 0 <= q <= 3) by lia.
  assert (Hdiv : ((year d - 1970) * 4 + q) / 4 = year d - 1970).
  { symmetry. apply (Z.div_unique _ 4 _ q); lia. }
  assert (Hmod : ((year d - 1970) * 4 + q) mod 4 = q).
  { symmetry. apply (Z.mod_unique _ 4 (year d - 1970) q); lia. }
  rewrite Hdiv, Hmod.
  replace (1970 + (year d - 1970)) with (year d) by lia.
  split; [reflexivity | lia].
Qed.

Lemma quarter_label_witness :
  strftime_Yq (to_period_Q {| year := 2024; month := 5; day := 17 |}) =
    signed_dec 2024 +:+ "-Q" +:+ dec 2 /\
  1 <= 2 <= 4.
Proof.
  apply (quarter_label {| year := 2024; month := 5; day := 17 |}).
  simpl. lia.
Defined.
